(** * tbd-suite: the training drivers and the task abstraction

    A shallow embedding of the parts of the two training pipelines that
    carry logic of their own:

    - [resnet_ctl_imagenet_main.py]: [get_num_train_iterations],
      [_steps_to_run], [build_stats] and the arithmetic of [run];
    - [base_task.py]: [Task.__init__], [Task.task_config],
      [Task.compile_model], [Task.build_losses], [Task.train_step] and
      [Task.validation_step];
    - [training.py]: the resume block, the batch loss guard and the epoch
      loop of [main].

    Python integers are [Z]; Python floats are IEEE-754 binary64 values,
    taken from the inductive specification [spec_float]; dictionaries are
    [gmap]s; a raised exception is the [Raise] outcome of the [result]
    monad. *)

From Stdlib Require Import ZArith String List Bool Lia.
From Stdlib Require Import Floats.SpecFloat.
From stdpp Require Import base option list gmap strings pretty.

Local Open Scope string_scope.
Local Open Scope list_scope.
Local Open Scope Z_scope.

(* ===================================================================== *)
(** ** Python values, exceptions and the error monad *)
(* ===================================================================== *)

Module Py.

(** The exceptions the modelled code can raise.  [FrameworkError] stands
    for any exception raised inside a framework call (Keras, Torch); it is
    kept apart from the exceptions the repository's own code raises. *)
Inductive exn : Type :=
  | ValueError (msg : string)
  | TypeError
  | KeyError (key : string)
  | IndexError
  | ZeroDivisionError
  | OverflowError
  | UnboundLocalError (var : string)
  | AttributeError (attr : string)
  | RuntimeError
  | FrameworkError (tag : string).

Inductive result (A : Type) : Type :=
  | Ok (a : A)
  | Raise (e : exn).
Arguments Ok {A} a.
Arguments Raise {A} e.

#[global] Instance result_ret : MRet result := fun _ a => Ok a.
#[global] Instance result_bind : MBind result := fun _ _ f m =>
  match m with
  | Ok a => f a
  | Raise e => Raise e
  end.

(** *** binary64 floats *)

Definition prec64 : Z := 53.
Definition emax64 : Z := 1024.

Abbreviation float := spec_float.

Definition fadd : float -> float -> float := SFadd prec64 emax64.
Definition fmul : float -> float -> float := SFmul prec64 emax64.
Definition fdiv : float -> float -> float := SFdiv prec64 emax64.
Definition feqb : float -> float -> bool := SFeqb.
Definition fltb : float -> float -> bool := SFltb.
Definition fleb : float -> float -> bool := SFleb.

Definition float_inf : float := S754_infinity false.
Definition float_neg_inf : float := SFopp float_inf.
Definition float_one : float := Eval vm_compute in SFone prec64 emax64.

Definition is_finite (f : float) : bool :=
  match f with
  | S754_zero _ | S754_finite _ _ _ => true
  | S754_infinity _ | S754_nan => false
  end.

(** [float(n)] for a Python integer: round to nearest even, and
    [OverflowError] when the integer is beyond the largest double. *)
Definition float_of_int (n : Z) : result float :=
  match binary_normalize prec64 emax64 n 0 false with
  | S754_infinity _ => Raise OverflowError
  | f => Ok f
  end.

(** [math.ceil(x)]: the least integer not below [x]. *)
Definition math_ceil (x : float) : result Z :=
  match x with
  | S754_zero _ => Ok 0
  | S754_infinity _ => Raise OverflowError
  | S754_nan => Raise (ValueError "cannot convert float NaN to integer")
  | S754_finite s m e =>
      let n := cond_Zopp s (Zpos m) in
      Ok (match e with
          | Z0 => n
          | Zpos _ => n * 2 ^ e
          | Zneg _ => - ((- n) / 2 ^ (- e))
          end)
  end.

(** [x / n] for a float [x] and an integer [n]. *)
Definition float_div_int (x : float) (n : Z) : result float :=
  d ← float_of_int n;
  if n =? 0 then Raise ZeroDivisionError else Ok (fdiv x d).

(** [x * n] for a float [x] and an integer [n]. *)
Definition float_mul_int (x : float) (n : Z) : result float :=
  d ← float_of_int n;
  Ok (fmul x d).

(** [a // b] on integers. *)
Definition floordiv (a b : Z) : result Z :=
  if b =? 0 then Raise ZeroDivisionError else Ok (a / b).

(** *** Values

    The Python values the drivers pass around.  [VObj] is a reference to
    an object, named by its identity; two references are the same object
    exactly when the identities are equal. *)
#[warnings="-register-all"]
Inductive pyval : Type :=
  | VNone
  | VBool (b : bool)
  | VInt (n : Z)
  | VFloat (x : float)
  | VTensor (data : list float)
  | VTuple (items : list pyval)
  | VList (items : list pyval)
  | VObj (id : positive).

(** [d[k]] on a dictionary with string keys. *)
Definition getitem {V : Type} (d : gmap string V) (k : string) : result V :=
  match d !! k with
  | Some v => Ok v
  | None => Raise (KeyError k)
  end.

(** [d.get(k, dflt)]. *)
Definition dict_get {V : Type} (d : gmap string V) (k : string) (dflt : V) : V :=
  match d !! k with
  | Some v => v
  | None => dflt
  end.

End Py.

Import Py.

(* ===================================================================== *)
(** ** resnet_ctl_imagenet_main.py *)
(* ===================================================================== *)

Module ResnetCtl.

(** The flags [get_num_train_iterations] reads.  [train_steps] is an
    integer flag without a default value, so it may be [None]. *)
Record flags : Type := {
  batch_size : Z;
  train_epochs : Z;
  train_steps : option Z
}.

(** Truth value of an optional integer flag: [None] and [0] are false. *)
Definition flag_truthy (f : option Z) : bool :=
  match f with
  | Some n => negb (n =? 0)
  | None => false
  end.

(** [math.ceil(1.0 * num_validation / batch_size)]. *)
Definition eval_steps_of (num_validation batch : Z) : result Z :=
  x ← float_mul_int float_one num_validation;
  q ← float_div_int x batch;
  math_ceil q.

(** [get_num_train_iterations(flags_obj)].  The table
    [imagenet_preprocessing.NUM_IMAGES] lives in another module of the
    suite and is taken as a parameter. *)
Definition get_num_train_iterations
    (NUM_IMAGES : gmap string Z) (flags_obj : flags) : result (Z * Z * Z) :=
  num_train ← getitem NUM_IMAGES "train";
  train_steps0 ← floordiv num_train (batch_size flags_obj);
  let train_epochs0 := train_epochs flags_obj in
  let '(train_steps1, train_epochs1) :=
    match train_steps flags_obj with
    | Some override =>
        if flag_truthy (Some override)
        then (Z.min override train_steps0, 1)
        else (train_steps0, train_epochs0)
    | None => (train_steps0, train_epochs0)
    end in
  num_validation ← getitem NUM_IMAGES "validation";
  eval_steps ← eval_steps_of num_validation (batch_size flags_obj);
  Ok (train_steps1, train_epochs1, eval_steps).

(** [_steps_to_run(steps_in_current_epoch, steps_per_epoch, steps_per_loop)]. *)
Definition _steps_to_run
    (steps_in_current_epoch steps_per_epoch steps_per_loop : Z) : result Z :=
  if steps_per_loop <=? 0 then
    Raise (ValueError "steps_per_loop should be positive integer.")
  else if steps_per_loop =? 1 then
    Ok steps_per_loop
  else
    Ok (Z.min steps_per_loop (steps_per_epoch - steps_in_current_epoch)).

(** A table with the training count of the worked example. *)
Definition imagenet_like : gmap string Z :=
  <["train" := 1000]> (<["validation" := 50000]> ∅).

End ResnetCtl.


(* ===================================================================== *)
(** ** base_task.py *)
(* ===================================================================== *)

Module BaseTask.

(** *** Tensors and [tf.add_n]

    A tensor is its element type, its shape and its elements in row-major
    order.  [tf.add_n] is a framework operation: it wants at least one
    input, all of one shape and element type, and adds them element by
    element, from left to right. *)
Inductive dtype : Type := float16 | bfloat16 | float32 | float64.

#[global] Instance dtype_eq_dec : EqDecision dtype.
Proof. solve_decision. Defined.

Definition dtype_prec (d : dtype) : Z :=
  match d with
  | float16 => 11 | bfloat16 => 8 | float32 => 24 | float64 => 53
  end.

Definition dtype_emax (d : dtype) : Z :=
  match d with
  | float16 => 16 | bfloat16 => 128 | float32 => 128 | float64 => 1024
  end.

Record Tensor : Type := {
  t_dtype : dtype;
  t_shape : list nat;
  t_values : list float
}.

(** Addition of two elements of type [d]. *)
Definition elem_add (d : dtype) : float -> float -> float :=
  SFadd (dtype_prec d) (dtype_emax d).

Definition same_signature (a b : Tensor) : bool :=
  bool_decide (t_dtype a = t_dtype b) && bool_decide (t_shape a = t_shape b).

Definition add_n_msg : string :=
  "inputs must be a list of at least one Tensor with the same dtype and shape".

Definition tensor_add (a b : Tensor) : result Tensor :=
  if same_signature a b then
    Ok {| t_dtype := t_dtype a;
          t_shape := t_shape a;
          t_values := zip_with (elem_add (t_dtype a)) (t_values a) (t_values b) |}
  else Raise (ValueError add_n_msg).

Fixpoint add_from (acc : Tensor) (rest : list Tensor) : result Tensor :=
  match rest with
  | [] => Ok acc
  | t :: rest' => acc' ← tensor_add acc t; add_from acc' rest'
  end.

Definition add_n (inputs : list Tensor) : result Tensor :=
  match inputs with
  | [] => Raise (ValueError add_n_msg)
  | t :: rest => add_from t rest
  end.

(** The elements at position [i] of a list of tensors. *)
Definition column (i : nat) (ts : list Tensor) : list float :=
  omap (fun u => t_values u !! i) ts.

(** Same element type, shape and number of elements. *)
Definition compatible (t u : Tensor) : Prop :=
  t_dtype u = t_dtype t /\ t_shape u = t_shape t
  /\ length (t_values u) = length (t_values t).

(** [tf.constant(x, dtype=d)] for a Python float [x]: a scalar. *)
Definition constant (x : float) (d : dtype) : Tensor :=
  {| t_dtype := d; t_shape := []; t_values := [x] |}.

Definition float_zero : float := S754_zero false.

(** Three single-precision loss vectors of two elements, with entries that
    are multiples of one half. *)
Definition half (n : positive) : float :=
  binary_normalize 24 128 (Zpos n) (-1) false.

Definition loss_a : Tensor :=
  {| t_dtype := float32; t_shape := [2%nat]; t_values := [half 1; half 3] |}.
Definition loss_b : Tensor :=
  {| t_dtype := float32; t_shape := [2%nat]; t_values := [half 2; half 5] |}.
Definition loss_c : Tensor :=
  {| t_dtype := float32; t_shape := [2%nat]; t_values := [half 4; half 1] |}.

(** *** [Task.__init__] and [Task.task_config]

    Objects live in a heap; an object is its class, as far as attribute
    assignment tells classes apart, and its attributes.  [Task] derives
    from [tf.Module], so [self._task_config = params] goes through the
    attribute tracking of the framework: a plain list, a plain dict, and
    a tuple that holds a list, a dict or a trackable object are stored
    inside a new tracking wrapper; the value held by a [NoDependency] is
    stored in its stead; every other value is stored as it is.  How a
    wrapper tracks what is nested inside its value is not modelled. *)
Inductive obj_class : Type :=
  | Instance
  | PlainDict
  | Trackable
  | Wrapper
  | NoDependency.

Record obj : Type := {
  class_of : obj_class;
  attrs : gmap string pyval
}.

Abbreviation heap := (gmap positive obj).

Definition blank (c : obj_class) : obj := {| class_of := c; attrs := ∅ |}.

Definition set_attr (name : string) (v : pyval) (o : obj) : obj :=
  {| class_of := class_of o; attrs := <[name := v]> (attrs o) |}.

(** Whether an element makes the tuple around it one to wrap. *)
Fixpoint tuple_item_tracked (h : heap) (v : pyval) : bool :=
  match v with
  | VList _ => true
  | VObj id =>
      match h !! id with
      | Some o =>
          match class_of o with
          | Instance => false
          | PlainDict | Trackable | Wrapper | NoDependency => true
          end
      | None => false
      end
  | VTuple items => existsb (tuple_item_tracked h) items
  | _ => false
  end.

(** Whether attribute assignment on a [tf.Module] stores the value
    itself. *)
Definition stored_as_is (h : heap) (v : pyval) : bool :=
  match v with
  | VList _ => false
  | VTuple items => negb (existsb (tuple_item_tracked h) items)
  | VObj id =>
      match h !! id with
      | Some o =>
          match class_of o with
          | PlainDict | NoDependency => false
          | Instance | Trackable | Wrapper => true
          end
      | None => true
      end
  | _ => true
  end.

(** The value that is stored for [v], and the heap with the wrapper when
    one is made. *)
Definition wrap_or_unwrap (v : pyval) (h : heap) : pyval * heap :=
  if stored_as_is h v then (v, h)
  else
    let wrapped :=
      let w := fresh (dom h) in
      (VObj w,
       <[w := {| class_of := Wrapper; attrs := {[ "wrapped" := v ]} |}]> h) in
    match v with
    | VObj id =>
        match h !! id with
        | Some o =>
            match class_of o with
            | NoDependency => (default VNone (attrs o !! "value"), h)
            | _ => wrapped
            end
        | None => wrapped
        end
    | _ => wrapped
    end.

Definition __init__ (self : positive) (params : pyval) (h : heap) : heap :=
  let '(stored, h1) := wrap_or_unwrap params h in
  <[self := set_attr "_task_config" stored
              (default (blank Trackable) (h1 !! self))]> h1.

Definition task_config (self : positive) (h : heap) : result pyval :=
  match h !! self with
  | Some o =>
      match attrs o !! "_task_config" with
      | Some v => Ok v
      | None => Raise (AttributeError "_task_config")
      end
  | None => Raise (AttributeError "_task_config")
  end.

(** [Task(params)] for a concrete subclass: a fresh object is allocated
    and handed to [__init__]. *)
Definition new_task (params : pyval) (h : heap) : positive * heap :=
  let self := fresh (dom h) in
  (self, __init__ self params (<[self := blank Trackable]> h)).

(** A heap with a configuration object at identity 1, a plain dict at
    identity 2, and a task not yet initialised at identity 3. *)
Definition config_object : obj :=
  {| class_of := Instance;
     attrs := {[ "model" := VInt 50; "dataset" := VInt 1000 ]} |}.

Definition config_heap : heap :=
  {[ 1%positive := config_object;
     2%positive := {| class_of := PlainDict; attrs := {[ "model" := VInt 50 ]} |};
     3%positive := blank Trackable ]}.

(** *** [Task.build_losses] *)
Definition build_losses (labels model_outputs : pyval)
    (aux_losses : option (list Tensor)) : result Tensor :=
  let losses :=
    match aux_losses with
    | None => [constant float_zero float32]
    | Some aux => aux
    end in
  add_n losses.

(** *** [Task.compile_model] *)
Definition exclusive_msg : string :=
  "`loss` and `train_step` should be exclusive to each other.".

Definition is_none {A : Type} (x : option A) : bool :=
  match x with
  | None => true
  | Some _ => false
  end.

Section Compile.
Context {Optimizer Loss Kwargs Callable : Type}.

(** [functools.partial(f, model=model, optimizer=...)]: the function and
    the optimizer bound to it; the model bound is the model that
    carries the partial. *)
Record Partial : Type := {
  p_func : Callable;
  p_optimizer : option Optimizer
}.

Record KerasModel : Type := {
  m_optimizer : option Optimizer;
  m_loss : option Loss;
  m_train_step : option Partial;
  m_test_step : option Partial
}.

(** [model.compile(optimizer=..., loss=..., **kwargs)], a Keras call:
    the compiled model, or the tag of the exception Keras raised. *)
Variable keras_compile :
  KerasModel -> Optimizer -> option Loss -> Kwargs -> string + KerasModel.

(** Truth value of a callable. *)
Variable truthy : Callable -> bool.

Definition set_train_step (m : KerasModel) (p : Partial) : KerasModel :=
  {| m_optimizer := m_optimizer m; m_loss := m_loss m;
     m_train_step := Some p; m_test_step := m_test_step m |}.

Definition set_test_step (m : KerasModel) (p : Partial) : KerasModel :=
  {| m_optimizer := m_optimizer m; m_loss := m_loss m;
     m_train_step := m_train_step m; m_test_step := Some p |}.

Definition compile_model (model : KerasModel) (optimizer : Optimizer)
    (loss : option Loss) (train_step validation_step : option Callable)
    (kwargs : Kwargs) : result KerasModel :=
  if Bool.eqb (is_none loss) (is_none train_step) then
    Raise (ValueError exclusive_msg)
  else
    match keras_compile model optimizer loss kwargs with
    | inl tag => Raise (FrameworkError tag)
    | inr model1 =>
        let model2 :=
          match train_step with
          | Some f =>
              if truthy f then
                set_train_step model1
                  {| p_func := f; p_optimizer := m_optimizer model1 |}
              else model1
          | None => model1
          end in
        let model3 :=
          match validation_step with
          | Some g =>
              if truthy g then
                set_test_step model2 {| p_func := g; p_optimizer := None |}
              else model2
          | None => model2
          end in
        Ok model3
    end.
End Compile.

(** *** [Task.train_step] and [Task.validation_step] *)

(** The test [isinstance(inputs, tuple) and len(inputs) == 2] and the two
    assignments it chooses between. *)
Definition split_inputs (inputs : pyval) : pyval * pyval :=
  match inputs with
  | VTuple [features; labels] => (features, labels)
  | _ => (inputs, inputs)
  end.

(** [t / n] for a tensor and a Python integer. *)
Definition tensor_div_int (t : Tensor) (n : Z) : Tensor :=
  let p := dtype_prec (t_dtype t) in
  let e := dtype_emax (t_dtype t) in
  {| t_dtype := t_dtype t;
     t_shape := t_shape t;
     t_values := map (fun x => SFdiv p e x (binary_normalize p e n 0 false))
                     (t_values t) |}.

Section Steps.
Context {Model Optimizer Metric Grads : Type}.

(** The framework, as far as the two steps use it. *)
Variable call_model : Model -> pyval -> bool -> result pyval.
Variable model_losses : Model -> list Tensor.
Variable num_replicas_in_sync : Z.
Variable is_loss_scale_optimizer : Optimizer -> bool.
Variable get_scaled_loss : Optimizer -> Tensor -> Tensor.
Variable get_unscaled_gradients : Optimizer -> Grads -> Grads.
Variable tape_gradient : Model -> pyval -> Tensor -> Grads.
Variable apply_gradients : Optimizer -> Model -> Grads -> Optimizer * Model.
Variable update_state : Metric -> pyval -> pyval -> Metric.
Variable metric_name : Metric -> string.
Variable metric_result : Metric -> Tensor.
Variable has_compiled_metrics : Model -> bool.
Variable update_compiled_metrics : Model -> pyval -> pyval -> Model.
Variable model_metrics : Model -> list Metric.

(** The key [Task.loss] of the returned logs. *)
Definition loss_key : string := "loss".

Definition process_metrics (metrics : list Metric)
    (labels model_outputs : pyval) : list Metric :=
  map (fun metric => update_state metric labels model_outputs) metrics.

Definition process_compiled_metrics (model : Model)
    (labels model_outputs : pyval) : Model :=
  update_compiled_metrics model labels model_outputs.

(** [logs.update({m.name: m.result() for m in metrics})]. *)
Definition logs_update (logs : gmap string Tensor) (metrics : list Metric)
    : gmap string Tensor :=
  foldl (fun acc m => <[metric_name m := metric_result m]> acc) logs metrics.

(** Truth value of the [metrics] argument: [None] and the empty list
    are false. *)
Definition metrics_given (metrics : option (list Metric)) : option (list Metric) :=
  match metrics with
  | Some (m :: ms) => Some (m :: ms)
  | _ => None
  end.

(** The metric bookkeeping both steps end with. *)
Definition report (loss : Tensor) (labels outputs : pyval) (model : Model)
    (metrics : option (list Metric))
    : gmap string Tensor * Model * option (list Metric) :=
  let logs := {[ loss_key := loss ]} in
  match metrics_given metrics with
  | Some ms =>
      let ms' := process_metrics ms labels outputs in
      (logs_update logs ms', model, Some ms')
  | None =>
      if has_compiled_metrics model then
        let model' := process_compiled_metrics model labels outputs in
        (logs_update logs (model_metrics model'), model', metrics)
      else (logs, model, metrics)
  end.

(** The body of [train_step] once [features] and [labels] are bound. *)
Definition train_on (features labels : pyval) (model : Model)
    (optimizer : Optimizer) (metrics : option (list Metric))
    : result (gmap string Tensor * Model * Optimizer * option (list Metric)) :=
  outputs ← call_model model features true;
  loss ← build_losses labels outputs (Some (model_losses model));
  let scaled_loss := tensor_div_int loss num_replicas_in_sync in
  let scaled_loss :=
    if is_loss_scale_optimizer optimizer
    then get_scaled_loss optimizer scaled_loss else scaled_loss in
  let grads := tape_gradient model features scaled_loss in
  let grads :=
    if is_loss_scale_optimizer optimizer
    then get_unscaled_gradients optimizer grads else grads in
  let '(optimizer', model') := apply_gradients optimizer model grads in
  let '(logs, model'', metrics') := report loss labels outputs model' metrics in
  Ok (logs, model'', optimizer', metrics').

Definition train_step (inputs : pyval) (model : Model)
    (optimizer : Optimizer) (metrics : option (list Metric)) :=
  let '(features, labels) := split_inputs inputs in
  train_on features labels model optimizer metrics.

(** [Task.inference_step]. *)
Definition inference_step (inputs : pyval) (model : Model) : result pyval :=
  call_model model inputs false.

(** The body of [validation_step] once [features] and [labels] are
    bound. *)
Definition validate_on (features labels : pyval) (model : Model)
    (metrics : option (list Metric))
    : result (gmap string Tensor * Model * option (list Metric)) :=
  outputs ← inference_step features model;
  loss ← build_losses labels outputs (Some (model_losses model));
  Ok (report loss labels outputs model metrics).

Definition validation_step (inputs : pyval) (model : Model)
    (metrics : option (list Metric)) :=
  let '(features, labels) := split_inputs inputs in
  validate_on features labels model metrics.
End Steps.

End BaseTask.

(* ===================================================================== *)
(** ** training.py *)
(* ===================================================================== *)

Module Training.

(** *** Python arithmetic used by [main] *)

(** Truncation of a float towards zero. *)
Definition float_trunc (x : float) : result Z :=
  match x with
  | S754_zero _ => Ok 0
  | S754_infinity _ => Raise OverflowError
  | S754_nan => Raise (ValueError "cannot convert float NaN to integer")
  | S754_finite s m e =>
      Ok (cond_Zopp s
            (match e with
             | Z0 => Zpos m
             | Zpos _ => Zpos m * 2 ^ e
             | Zneg _ => Zpos m / 2 ^ (- e)
             end))
  end.

(** [int(v)]. *)
Definition py_int (v : pyval) : result Z :=
  match v with
  | VInt n => Ok n
  | VBool b => Ok (if b then 1 else 0)
  | VFloat x => float_trunc x
  | VTensor [x] => float_trunc x
  | VTensor _ =>
      Raise (ValueError "only one element tensors can be converted to Python scalars")
  | VNone | VTuple _ | VList _ | VObj _ => Raise TypeError
  end.

(** A number as a float, for mixed arithmetic. *)
Definition as_number (v : pyval) : option (Z + float) :=
  match v with
  | VInt n => Some (inl n)
  | VBool b => Some (inl (if b then 1 else 0))
  | VFloat x => Some (inr x)
  | _ => None
  end.

(** [a + b] on numbers: integers stay integers, anything else is added
    as floats. *)
Definition py_add (a b : pyval) : result pyval :=
  match as_number a, as_number b with
  | Some (inl m), Some (inl n) => Ok (VInt (m + n))
  | Some (inl m), Some (inr y) => x ← float_of_int m; Ok (VFloat (fadd x y))
  | Some (inr x), Some (inl n) => y ← float_of_int n; Ok (VFloat (fadd x y))
  | Some (inr x), Some (inr y) => Ok (VFloat (fadd x y))
  | _, _ => Raise TypeError
  end.

(** An integer as a float operand of a correctly rounded quotient. *)
Definition exact_operand (n : Z) : float :=
  match n with
  | Z0 => S754_zero false
  | Zpos p => S754_finite false p 0
  | Zneg p => S754_finite true p 0
  end.

(** [a / n] (true division) for a number [a] and an integer [n]. *)
Definition py_truediv_int (a : pyval) (n : Z) : result float :=
  match as_number a with
  | Some (inl m) =>
      if n =? 0 then Raise ZeroDivisionError
      else match fdiv (exact_operand m) (exact_operand n) with
           | S754_infinity _ => Raise OverflowError
           | q => Ok q
           end
  | Some (inr x) => float_div_int x n
  | None => Raise TypeError
  end.

(** [x / y] on floats. *)
Definition float_truediv (x y : float) : result float :=
  match y with
  | S754_zero _ => Raise ZeroDivisionError
  | _ => Ok (fdiv x y)
  end.

(** The integer an [enumerate] start must be. *)
Definition py_index (v : pyval) : result Z :=
  match v with
  | VInt n => Ok n
  | VBool b => Ok (if b then 1 else 0)
  | _ => Raise TypeError
  end.

(** *** Result arrays

    [torch.Tensor(n)] is a single-precision vector of [n] cells that are
    not initialised; a cell that was never written is [None]. *)
Definition results : Type := list (option float).

Definition to_float32 (x : float) : float :=
  match x with
  | S754_finite s m e => binary_round 24 128 s m e
  | _ => x
  end.

Definition new_results (n : Z) : result results :=
  if n <? 0 then Raise RuntimeError else Ok (replicate (Z.to_nat n) None).

(** [t[i] = x], with Python's negative indices. *)
Definition setitem (t : results) (i : Z) (x : float) : result results :=
  let len := Z.of_nat (length t) in
  if (0 <=? i) && (i <? len) then
    Ok (<[Z.to_nat i := Some (to_float32 x)]> t)
  else if (- len <=? i) && (i <? 0) then
    Ok (<[Z.to_nat (len + i) := Some (to_float32 x)]> t)
  else Raise IndexError.

(** Number of cells the slice [[:k]] selects in a vector of [len] cells. *)
Definition slice_stop (len : nat) (k : Z) : nat :=
  if k <? 0 then Z.to_nat (Z.max 0 (Z.of_nat len + k))
  else Z.to_nat (Z.min k (Z.of_nat len)).

(** [dst[:k] = src[:k]]: the sizes must agree, or the source slice has
    one cell, which is then broadcast. *)
Definition assign_prefix (dst : results) (src : pyval) (k : Z) : result results :=
  match src with
  | VTensor data =>
      let nd := slice_stop (length dst) k in
      let piece := take (slice_stop (length data) k) data in
      if bool_decide (length piece = nd) then
        Ok (map (fun x => Some (to_float32 x)) piece ++ drop nd dst)
      else
        match piece with
        | [x] => Ok (replicate nd (Some (to_float32 x)) ++ drop nd dst)
        | _ => Raise RuntimeError
        end
  | _ => Raise TypeError
  end.

(** *** Flags, parameters and the observable output *)

Record Args : Type := {
  checkpoint : bool;
  save_folder : string;
  model_path : string;
  continue_from : string;
  acc : float;
  start_epoch : Z
}.

(** The fields of the module [model.params] that [main] branches on. *)
Record Params : Type := {
  epochs : Z;
  exit_at_acc : bool;
  learning_anneal : float;
  lr : float
}.

Inductive event : Type :=
  | Print (line : string)
  | TrainingSummary (epoch : Z) (avg_loss : pyval)
  | ValidationSummary (epoch : Z) (wer cer : float)
  | LearningRate (rate : float)
  | Shown (loss_results : results)
  | BestWer (best : option float)
  | Saved (path : string) (epoch : Z) (loss_results wer_results cer_results : results).

Definition inf_warning : string :=
  "WARNING: received an inf loss, setting loss value to 0".
Definition skip_warning : string := "skipping eval model checkpoint.... ".

(** Lines 72-82: the position to resume from.  The result is
    [(start_epoch, start_iter, avg_loss)]. *)
Definition resume_counters (package : gmap string pyval) (args : Args)
    : result (Z * pyval * Z) :=
  e ← py_int (dict_get package "epoch" (VInt 1));
  let start_epoch0 := e - 1 in
  let start_iter0 := dict_get package "iteration" VNone in
  '(start_epoch1, start_iter1) ←
     match start_iter0 with
     | VNone => Ok (start_epoch0 + 1, VInt 0)
     | _ => it ← py_add start_iter0 (VInt 1); Ok (start_epoch0, it)
     end;
  avg_loss ← py_int (dict_get package "avg_loss" (VInt 0));
  let start_epoch2 :=
    if start_epoch args =? -1 then start_epoch1 else start_epoch args in
  Ok (start_epoch2, start_iter1, avg_loss).

(** *** The state of [main]

    The local variables the loops read and write, and the lines printed
    and files saved so far.  [wer] and [cer] are [None] until an
    evaluation has bound them.  The timing meters and the banner printed
    around the loop are left out. *)
Record state {Meter : Type} : Type := {
  avg_loss : pyval;
  start_iter : pyval;
  losses : Meter;
  loss_results : results;
  wer_results : results;
  cer_results : results;
  best_wer : option float;
  wer : option float;
  cer : option float;
  rate : float;
  out : list event
}.
Arguments state Meter : clear implicits.

Section Main.
Context {Meter : Type}.

Variable params : Params.
Variable args : Args.

(** The environment of the run: the checkpoint file, the two
    [load_state_dict] calls (the second gives the learning rate of the
    restored optimizer), the number of batches [len(train_loader)], the
    loss tensor and batch size observed at batch [i] of an epoch, the
    sum of a tensor, [AverageMeter] and its [update], and the outcome
    of [eval_model] after each epoch. *)
Variable torch_load : string -> result (gmap string pyval).
Variable load_state_dict : pyval -> result unit.
Variable load_optim_dict : pyval -> result float.
Variable n_batches : nat.
Variable batch_loss : Z -> Z -> list float * Z.
Variable tensor_sum : list float -> float.
Variable new_meter : Meter.
Variable meter_update : Meter -> pyval -> Z -> Meter.
Variable eval_model : Z -> result (float * float).

Abbreviation St := (state Meter).

Definition emit (evs : list event) (st : St) : St :=
  {| avg_loss := avg_loss st; start_iter := start_iter st;
     losses := losses st; loss_results := loss_results st;
     wer_results := wer_results st; cer_results := cer_results st;
     best_wer := best_wer st; wer := wer st; cer := cer st;
     rate := rate st; out := out st ++ evs |}.

Definition set_avg_loss (v : pyval) (st : St) : St :=
  {| avg_loss := v; start_iter := start_iter st;
     losses := losses st; loss_results := loss_results st;
     wer_results := wer_results st; cer_results := cer_results st;
     best_wer := best_wer st; wer := wer st; cer := cer st;
     rate := rate st; out := out st |}.

Definition set_start_iter (v : pyval) (st : St) : St :=
  {| avg_loss := avg_loss st; start_iter := v;
     losses := losses st; loss_results := loss_results st;
     wer_results := wer_results st; cer_results := cer_results st;
     best_wer := best_wer st; wer := wer st; cer := cer st;
     rate := rate st; out := out st |}.

Definition set_losses (m : Meter) (st : St) : St :=
  {| avg_loss := avg_loss st; start_iter := start_iter st;
     losses := m; loss_results := loss_results st;
     wer_results := wer_results st; cer_results := cer_results st;
     best_wer := best_wer st; wer := wer st; cer := cer st;
     rate := rate st; out := out st |}.

Definition set_results (l w c : results) (st : St) : St :=
  {| avg_loss := avg_loss st; start_iter := start_iter st;
     losses := losses st; loss_results := l;
     wer_results := w; cer_results := c;
     best_wer := best_wer st; wer := wer st; cer := cer st;
     rate := rate st; out := out st |}.

Definition set_best_wer (b : option float) (st : St) : St :=
  {| avg_loss := avg_loss st; start_iter := start_iter st;
     losses := losses st; loss_results := loss_results st;
     wer_results := wer_results st; cer_results := cer_results st;
     best_wer := b; wer := wer st; cer := cer st;
     rate := rate st; out := out st |}.

Definition set_wer_cer (w c : float) (st : St) : St :=
  {| avg_loss := avg_loss st; start_iter := start_iter st;
     losses := losses st; loss_results := loss_results st;
     wer_results := wer_results st; cer_results := cer_results st;
     best_wer := best_wer st; wer := Some w; cer := Some c;
     rate := rate st; out := out st |}.

Definition set_rate (r : float) (st : St) : St :=
  {| avg_loss := avg_loss st; start_iter := start_iter st;
     losses := losses st; loss_results := loss_results st;
     wer_results := wer_results st; cer_results := cer_results st;
     best_wer := best_wer st; wer := wer st; cer := cer st;
     rate := r; out := out st |}.

(** *** The batch loop *)

(** Lines 132-138: the value that goes into the running average, and
    what is printed on the way. *)
Definition loss_value_of (loss : list float) : result (pyval * list event) :=
  let loss_sum := tensor_sum loss in
  if feqb loss_sum float_inf || feqb loss_sum float_neg_inf then
    Ok (VInt 0, [Print inf_warning])
  else
    match loss with
    | x :: _ => Ok (VFloat x, [])
    | [] => Raise IndexError
    end.

(** Lines 132-141, for batch [i] of [epoch]. *)
Definition batch_step (epoch i : Z) (st : St) : result St :=
  let '(loss, size) := batch_loss epoch i in
  '(loss_value, printed) ← loss_value_of loss;
  avg ← py_add (avg_loss st) loss_value;
  Ok (set_losses (meter_update (losses st) loss_value size)
        (set_avg_loss avg (emit printed st))).

(** [for i, data in enumerate(train_loader, start=start_iter)], left
    with [break] when [i == len(train_loader)]. *)
Fixpoint batch_loop (todo : nat) (epoch i : Z) (st : St) : result St :=
  match todo with
  | O => Ok st
  | S todo' =>
      if i =? Z.of_nat n_batches then Ok st
      else st' ← batch_step epoch i st; batch_loop todo' epoch (i + 1) st'
  end.

(** *** One epoch *)

(** Lines 175-179: the evaluation under [try]. *)
Definition evaluate (epoch : Z) (st : St) : result St :=
  match eval_model epoch with
  | Ok (w, c) => Ok (set_wer_cer w c st)
  | Raise RuntimeError => Ok (emit [Print skip_warning] st)
  | Raise e => Raise e
  end.

Definition read_local (var : string) (v : option float) : result float :=
  match v with
  | Some x => Ok x
  | None => Raise (UnboundLocalError var)
  end.

Definition epoch_path (epoch : Z) : string :=
  (save_folder args ++ "/deepspeech_" ++ pretty (epoch + 1) ++ ".pth")%string.

(** [best_wer is None or best_wer > wer]. *)
Definition improves (best : option float) (w : float) : bool :=
  match best with
  | None => true
  | Some b => fltb w b
  end.

(** [best_wer <= args.acc]. *)
Definition wer_target_met (st : St) : bool :=
  match best_wer st with
  | Some b => fleb b (acc args)
  | None => false
  end.

(** [params.exit_at_acc and (best_wer <= args.acc)]. *)
Definition target_reached (st : St) : bool :=
  exit_at_acc params && wer_target_met st.

(** The body of the epoch loop, lines 105-216.  The flag is true when
    the body ends in [break]. *)
Definition epoch_body (epoch : Z) (st : St) : result (St * bool) :=
  i0 ← py_index (start_iter st);
  st ← batch_loop n_batches epoch i0 st;
  avg ← py_truediv_int (avg_loss st) (Z.of_nat n_batches);
  let st := emit [TrainingSummary (epoch + 1) (VFloat avg)]
              (set_avg_loss (VFloat avg) st) in
  let st := set_start_iter (VInt 0) st in
  st ← evaluate epoch st;
  l ← setitem (loss_results st) epoch avg;
  w ← read_local "wer" (wer st);
  wr ← setitem (wer_results st) epoch w;
  c ← read_local "cer" (cer st);
  cr ← setitem (cer_results st) epoch c;
  let st := emit [ValidationSummary (epoch + 1) w c] (set_results l wr cr st) in
  let st := if checkpoint args
            then emit [Saved (epoch_path epoch) epoch l wr cr] st else st in
  r ← float_truediv (rate st) (learning_anneal params);
  let st := emit [LearningRate r] (set_rate r st) in
  let st :=
    if improves (best_wer st) w then
      set_best_wer (Some w)
        (emit [Print ("Found better validated model, saving to "
                      ++ model_path args)%string;
               Saved (model_path args) epoch l wr cr] st)
    else st in
  let st := set_avg_loss (VInt 0) st in
  Ok (st, target_reached st).

(** [for epoch in range(start_epoch, params.epochs)], with [todo] the
    number of epochs the range still holds. *)
Fixpoint epoch_loop (todo : nat) (epoch : Z) (st : St) : result St :=
  match todo with
  | O => Ok st
  | S todo' =>
      '(st1, stop) ← epoch_body epoch st;
      if stop : bool then Ok st1 else epoch_loop todo' (epoch + 1) st1
  end.

(** The body [k] times in a row from [epoch], whatever the flag says:
    the state the loop is in after [k] epochs, if it gets that far. *)
Fixpoint epochs_run (k : nat) (epoch : Z) (st : St) : result St :=
  match k with
  | O => Ok st
  | S k' =>
      '(st1, _) ← epoch_body epoch st;
      epochs_run k' (epoch + 1) st1
  end.

(** *** [main] *)

Definition fresh_state (l w c : results) : St :=
  {| avg_loss := VInt 0; start_iter := VInt 0; losses := new_meter;
     loss_results := l; wer_results := w; cer_results := c;
     best_wer := None; wer := None; cer := None;
     rate := lr params; out := [] |}.

(** Lines 66-88: the branch taken when [args.continue_from] is not
    empty. *)
Definition resume (l w c : results) : result (Z * St) :=
  package ← torch_load (continue_from args);
  state_dict ← getitem package "state_dict";
  _ ← load_state_dict state_dict;
  optim_dict ← getitem package "optim_dict";
  restored_rate ← load_optim_dict optim_dict;
  '(start_epoch, start_iter, avg) ← resume_counters package args;
  src ← getitem package "loss_results";
  l ← assign_prefix l src start_epoch;
  src ← getitem package "cer_results";
  c ← assign_prefix c src start_epoch;
  src ← getitem package "wer_results";
  w ← assign_prefix w src start_epoch;
  Ok (start_epoch,
      {| avg_loss := VInt avg; start_iter := start_iter; losses := new_meter;
         loss_results := l; wer_results := w; cer_results := c;
         best_wer := None; wer := None; cer := None;
         rate := restored_rate;
         out := [Print ("Loading checkpoint model " ++ continue_from args)%string;
                 Shown l] |}).

Definition main : result St :=
  l ← new_results (epochs params);
  c ← new_results (epochs params);
  w ← new_results (epochs params);
  '(start_epoch, st) ←
     (if bool_decide (continue_from args = "")
      then Ok (0, fresh_state l w c)
      else resume l w c);
  st ← epoch_loop (Z.to_nat (epochs params - start_epoch)) start_epoch st;
  Ok (emit [BestWer (best_wer st)] st).
End Main.

(** *** A small run, for worked examples

    Two batches per epoch, the loss of batch [i] of epoch [e] being the
    one-element tensor [e + i]; a meter that records its updates; a sum
    that adds from left to right. *)
Definition flt (n : Z) : float := binary_normalize prec64 emax64 n 0 false.

Definition sum_in_order (l : list float) : float :=
  foldl fadd (S754_zero false) l.

Definition demo_params (n : Z) (stop_at_acc : bool) : Params :=
  {| epochs := n; exit_at_acc := stop_at_acc;
     learning_anneal := flt 2; lr := flt 1 |}.

Definition demo_args (from : string) : Args :=
  {| checkpoint := true; save_folder := "out"; model_path := "best.pth";
     continue_from := from; acc := flt 23; start_epoch := -1 |}.

Definition demo_batch_loss (epoch i : Z) : list float * Z := ([flt (epoch + i)], 4).

Definition demo_update (m : list (pyval * Z)) (v : pyval) (n : Z) : list (pyval * Z) :=
  m ++ [(v, n)].

Definition demo_state : state (list (pyval * Z)) :=
  fresh_state (demo_params 3 false) []
    [None; None; None] [None; None; None] [None; None; None].

Definition demo_loop (p : Params) (eval_model : Z -> result (float * float))
    (todo : nat) : result (state (list (pyval * Z))) :=
  epoch_loop p (demo_args "") 2%nat demo_batch_loss sum_in_order demo_update
    eval_model todo 0 demo_state.

Definition demo_epochs (p : Params) (eval_model : Z -> result (float * float))
    (k : nat) : result (state (list (pyval * Z))) :=
  epochs_run p (demo_args "") 2%nat demo_batch_loss sum_in_order demo_update
    eval_model k 0 demo_state.

(** An evaluation that finds a word error rate of 10 after every epoch,
    one that finds 30, 20 and 10, one that fails after the second epoch
    only, and one that fails after the first epoch only. *)
Definition eval_steady (epoch : Z) : result (float * float) :=
  Ok (flt 10, flt 5).

Definition eval_improving (epoch : Z) : result (float * float) :=
  Ok (flt (30 - 10 * epoch), flt 5).

Definition eval_failing_second (epoch : Z) : result (float * float) :=
  if epoch =? 1 then Raise RuntimeError else Ok (flt (30 - epoch), flt 5).

Definition eval_failing_first (epoch : Z) : result (float * float) :=
  if epoch =? 0 then Raise RuntimeError else Ok (flt (30 - epoch), flt 5).

Definition demo_main (p : Params) (from : string) (package : gmap string pyval)
    (eval_model : Z -> result (float * float)) : result (state (list (pyval * Z))) :=
  main p (demo_args from) (fun _ => Ok package) (fun _ => Ok tt)
    (fun _ => Ok (flt 1)) 2%nat demo_batch_loss sum_in_order [] demo_update
    eval_model.

(** A checkpoint written after the third epoch, and one written in the
    middle of it, after batch 5. *)
Definition epoch_checkpoint : gmap string pyval :=
  {[ "state_dict" := VObj 1; "optim_dict" := VObj 2; "epoch" := VInt 3;
     "loss_results" := VTensor [flt 9; flt 8; flt 7; flt 0];
     "cer_results" := VTensor [flt 5; flt 4; flt 3; flt 0];
     "wer_results" := VTensor [flt 30; flt 28; flt 26; flt 0] ]}.

Definition batch_checkpoint : gmap string pyval :=
  <["iteration" := VInt 5]> epoch_checkpoint.

End Training.


(* ===================================================================== *)
(** ** base_task.py: a small framework for worked examples *)
(* ===================================================================== *)

Module TaskDemo.
Import BaseTask.

(** A model is the list of its auxiliary losses and answers its input; a
    metric is its name and its result, and an update leaves it as it is;
    the optimizer does nothing. *)
Definition demo_metric : Type := string * Tensor.

Definition demo_validation_step (inputs : pyval) (model : list Tensor)
    (metrics : option (list demo_metric)) :=
  validation_step (fun (_ : list Tensor) x (_ : bool) => Ok x)
    (fun m => m) (fun (m : demo_metric) _ _ => m) fst snd
    (fun _ => false) (fun m _ _ => m) (fun _ => [])
    inputs model metrics.

Definition demo_train_step (inputs : pyval) (model : list Tensor)
    (metrics : option (list demo_metric)) :=
  train_step (fun (_ : list Tensor) x (_ : bool) => Ok x)
    (fun m => m) 1 (fun _ : unit => false) (fun _ t => t)
    (fun _ (g : unit) => g) (fun _ _ _ => tt) (fun o m _ => (o, m))
    (fun (m : demo_metric) _ _ => m) fst snd
    (fun _ => false) (fun m _ _ => m) (fun _ => [])
    inputs model tt metrics.

End TaskDemo.

(* ===================================================================== *)
(** ** resnet_ctl_imagenet_main.py: [run] and [build_stats] *)
(* ===================================================================== *)

Module ResnetRun.
Import ResnetCtl.

(** The flags [run] reads besides those of [get_num_train_iterations]. *)
Record run_flags : Type := {
  base : flags;
  steps_per_loop : Z;
  epochs_between_evals : Z;
  enable_checkpoint_and_export : bool;
  enable_tensorboard : bool;
  skip_eval : bool;
  profile_step : option Z;
  data_format : option string
}.


(** The image data format [run] sets: the flag, or a default that depends
    on whether a GPU is present. *)
Definition image_data_format (f : run_flags) (gpu_present : bool) : string :=
  match data_format f with
  | Some d => d
  | None => if gpu_present then "channels_first" else "channels_last"
  end.


(** What [build_stats] reads of the runnable: the [skip_eval] flag and
    the values [result().numpy()] of its four metrics. *)
Record Runnable : Type := {
  r_skip_eval : bool;
  test_loss : pyval;
  test_accuracy : pyval;
  train_loss : pyval;
  train_accuracy : pyval
}.

(** What [build_stats] reads of the time callback. *)
Record TimeHistory : Type := {
  timestamp_log : pyval;
  train_finish_time : pyval;
  epoch_runtime_log : list pyval;
  average_examples_per_second : pyval
}.

(** [build_stats(runnable, time_callback)]; a callback that is [None] is
    false. *)
Definition build_stats (runnable : Runnable) (time_callback : option TimeHistory)
    : gmap string pyval :=
  let stats : gmap string pyval := ∅ in
  let stats :=
    if r_skip_eval runnable then stats
    else
      <["train_acc" := train_accuracy runnable]>
        (<["train_loss" := train_loss runnable]>
           (<["eval_acc" := test_accuracy runnable]>
              (<["eval_loss" := test_loss runnable]> stats))) in
  match time_callback with
  | Some tc =>
      let stats :=
        <["train_finish_time" := train_finish_time tc]>
          (<["step_timestamp_log" := timestamp_log tc]> stats) in
      match epoch_runtime_log tc with
      | _ :: _ => <["avg_exp_per_second" := average_examples_per_second tc]> stats
      | [] => stats
      end
  | None => stats
  end.


Definition sample_runnable (skip : bool) : Runnable :=
  {| r_skip_eval := skip; test_loss := VInt 1; test_accuracy := VInt 2;
     train_loss := VInt 3; train_accuracy := VInt 4 |}.

Definition sample_callback (log : list pyval) : TimeHistory :=
  {| timestamp_log := VList []; train_finish_time := VInt 9;
     epoch_runtime_log := log; average_examples_per_second := VInt 7 |}.

End ResnetRun.

(* ===================================================================== *)
(** ** training.py: reference readings of the loops *)
(* ===================================================================== *)

Module TrainingLoops.
Import Training.

Section Reference.
Context {Meter : Type}.
Variable batch_loss : Z -> Z -> list float * Z.
Variable tensor_sum : list float -> float.
Variable meter_update : Meter -> pyval -> Z -> Meter.

(** The batch step at each index of a list, in order. *)
Fixpoint steps_over (epoch : Z) (indices : list Z) (st : state Meter)
    : result (state Meter) :=
  match indices with
  | [] => Ok st
  | i :: rest =>
      st1 ← batch_step batch_loss tensor_sum meter_update epoch i st;
      steps_over epoch rest st1
  end.
End Reference.

(** The indices [first, first + 1, ...], [count] of them. *)
Fixpoint indices_from (first : Z) (count : nat) : list Z :=
  match count with
  | O => []
  | S c => first :: indices_from (first + 1) c
  end.

Definition is_training_summary (ev : event) : bool :=
  match ev with
  | TrainingSummary _ _ => true
  | _ => false
  end.

Definition is_validation_summary (ev : event) : bool :=
  match ev with
  | ValidationSummary _ _ _ => true
  | _ => false
  end.

(** The number of events of a kind in the output. *)
Definition count_events (kind : event -> bool) (evs : list event) : nat :=
  length (filter (fun ev => kind ev = true) evs).

End TrainingLoops.

(* ===================================================================== *)
(** ** training.py: further sample inputs *)
(* ===================================================================== *)

Module TrainingSamples.
Import Training.

(** A package without an [epoch] key, and one that only names a batch. *)
Definition weights_only_package : gmap string pyval :=
  {[ "state_dict" := VObj 1 ]}.

Definition iteration_only_package : gmap string pyval :=
  {[ "iteration" := VInt 4 ]}.

(** The sample arguments with the [start_epoch] flag given. *)
Definition args_from_epoch (n : Z) : Args :=
  {| checkpoint := true; save_folder := "out"; model_path := "best.pth";
     continue_from := "last.pth"; acc := flt 23; start_epoch := n |}.

(** One epoch of the small run, and the state the small run is in after
    [k] epochs. *)
Definition demo_body (p : Params) (eval_model : Z -> result (float * float))
    (epoch : Z) (st : state (list (pyval * Z)))
    : result (state (list (pyval * Z)) * bool) :=
  epoch_body p (demo_args "") 2%nat demo_batch_loss sum_in_order demo_update
    eval_model epoch st.

Definition demo_after (p : Params) (eval_model : Z -> result (float * float))
    (k : nat) : state (list (pyval * Z)) :=
  match demo_epochs p eval_model k with
  | Ok st => st
  | Raise _ => demo_state
  end.

(** Parameters whose annealing factor is zero. *)
Definition zero_anneal_params : Params :=
  {| epochs := 3; exit_at_acc := false;
     learning_anneal := S754_zero false; lr := flt 1 |}.

(** A loss tensor whose two elements are infinite and cancel out. *)
Definition cancelling_loss (epoch i : Z) : list float * Z :=
  ([float_inf; float_neg_inf], 4).

End TrainingSamples.


(* ===================================================================== *)
(** ** Properties *)
(* ===================================================================== *)

Module PyFacts.

Lemma bind_Ok {A B : Type} (f : A -> result B) (a : A) :
  (Ok a ≫= f) = f a.
Proof. reflexivity. Qed.

Lemma bind_Raise {A B : Type} (f : A -> result B) (e : exn) :
  (Raise e ≫= f) = Raise e.
Proof. reflexivity. Qed.

Lemma bind_Ok_inv {A B : Type} (f : A -> result B) (m : result A) (b : B) :
  (m ≫= f) = Ok b -> exists a, m = Ok a /\ f a = Ok b.
Proof. destruct m as [a|e]; [ eauto | discriminate ]. Qed.

Lemma getitem_Some {V : Type} (d : gmap string V) (k : string) (v : V) :
  d !! k = Some v -> getitem d k = Ok v.
Proof. unfold getitem. intros ->. reflexivity. Qed.

Lemma floordiv_nonzero (a b : Z) : b <> 0 -> floordiv a b = Ok (a / b).
Proof.
  intros Hb. unfold floordiv.
  destruct (Z.eqb_spec b 0) as [E|_]; [ contradiction | reflexivity ].
Qed.

End PyFacts.

Module ResnetCtlFacts.
Import ResnetCtl PyFacts.

(** C3. [_steps_to_run] raises a [ValueError] for every
    [steps_per_loop <= 0]; it returns 1 whenever [steps_per_loop = 1],
    whatever the two other arguments are; and for every
    [steps_per_loop > 1] it returns the minimum of [steps_per_loop] and
    [steps_per_epoch - steps_in_current_epoch]. *)
Theorem steps_to_run_cases (steps_in_current_epoch steps_per_epoch steps_per_loop : Z) :
  (steps_per_loop <= 0 ->
     _steps_to_run steps_in_current_epoch steps_per_epoch steps_per_loop
     = Raise (ValueError "steps_per_loop should be positive integer."))
  /\ (steps_per_loop = 1 ->
       _steps_to_run steps_in_current_epoch steps_per_epoch steps_per_loop = Ok 1)
  /\ (1 < steps_per_loop ->
       _steps_to_run steps_in_current_epoch steps_per_epoch steps_per_loop
       = Ok (Z.min steps_per_loop (steps_per_epoch - steps_in_current_epoch))).
Proof.
  unfold _steps_to_run. repeat split; intros H.
  - destruct (Z.leb_spec steps_per_loop 0); [ reflexivity | lia ].
  - subst. reflexivity.
  - destruct (Z.leb_spec steps_per_loop 0); [ lia | ].
    destruct (Z.eqb_spec steps_per_loop 1); [ lia | reflexivity ].
Qed.

Lemma steps_to_run_cases_witness :
  _steps_to_run 3 10 (-2)
    = Raise (ValueError "steps_per_loop should be positive integer.")
  /\ _steps_to_run 3 10 1 = Ok 1
  /\ _steps_to_run 7 10 5 = Ok (Z.min 5 (10 - 7)).
Proof.
  split; [ | split ].
  - apply (proj1 (steps_to_run_cases 3 10 (-2))). lia.
  - apply (proj1 (proj2 (steps_to_run_cases 3 10 1))). reflexivity.
  - apply (proj2 (proj2 (steps_to_run_cases 7 10 5))). lia.
Defined.

(** With one step per loop the remaining steps do not matter, even when
    none remain. *)
Example steps_to_run_epoch_over : _steps_to_run 10 10 1 = Ok 1.
Proof. reflexivity. Qed.

(** With several steps per loop and no step remaining the result is not
    positive. *)
Example steps_to_run_none_left : _steps_to_run 12 10 4 = Ok (-2).
Proof. reflexivity. Qed.



(** The ceiling rounds a partial last batch up. *)
Example eval_steps_exact : eval_steps_of 50000 10 = Ok 5000.
Proof. vm_compute. reflexivity. Qed.

Example eval_steps_rounds_up : eval_steps_of 50001 10 = Ok 5001.
Proof. vm_compute. reflexivity. Qed.

(** A zero batch size fails in the first division already. *)
Example zero_batch_size :
  get_num_train_iterations imagenet_like
    {| batch_size := 0; train_epochs := 5; train_steps := None |}
  = Raise ZeroDivisionError.
Proof. reflexivity. Qed.

End ResnetCtlFacts.

Module BaseTaskFacts.
Import BaseTask PyFacts.

(** *** [compile_model] *)

Section CompileFacts.
Context {Optimizer Loss Kwargs Callable : Type}.
Variable keras_compile :
  @KerasModel Optimizer Loss Callable -> Optimizer -> option Loss -> Kwargs
  -> string + @KerasModel Optimizer Loss Callable.
Variable truthy : Callable -> bool.

Lemma compile_model_guard_passes (model : KerasModel) (optimizer : Optimizer)
    (loss : option Loss) (train_step validation_step : option Callable)
    (kwargs : Kwargs) :
  is_none loss <> is_none train_step ->
  (exists tag, compile_model keras_compile truthy model optimizer loss
                 train_step validation_step kwargs = Raise (FrameworkError tag))
  \/ (exists m, compile_model keras_compile truthy model optimizer loss
                  train_step validation_step kwargs = Ok m).
Proof.
  intros Hne. unfold compile_model.
  destruct (Bool.eqb (is_none loss) (is_none train_step)) eqn:E.
  - apply Bool.eqb_prop in E. contradiction.
  - destruct (keras_compile model optimizer loss kwargs) as [tag|m1]; eauto.
Qed.

(** C2. [compile_model] raises a [ValueError] if and only if [loss] and
    [train_step] are both [None] or both given; the error is then the
    exclusivity message, and with exactly one of the two given no
    [ValueError] is raised. *)
Theorem compile_model_raises_iff (model : KerasModel) (optimizer : Optimizer)
    (loss : option Loss) (train_step validation_step : option Callable)
    (kwargs : Kwargs) :
  let outcome := compile_model keras_compile truthy model optimizer loss
                   train_step validation_step kwargs in
  ((exists msg, outcome = Raise (ValueError msg))
   <-> (loss = None /\ train_step = None)
       \/ (loss <> None /\ train_step <> None))
  /\ ((loss = None /\ train_step = None)
        \/ (loss <> None /\ train_step <> None)
      -> outcome = Raise (ValueError exclusive_msg))
  /\ ((loss = None /\ train_step <> None)
        \/ (loss <> None /\ train_step = None)
      -> forall msg, outcome <> Raise (ValueError msg)).
Proof.
  cbn zeta.
  assert (Hboth : (loss = None /\ train_step = None)
                  \/ (loss <> None /\ train_step <> None)
                  -> compile_model keras_compile truthy model optimizer loss
                       train_step validation_step kwargs
                     = Raise (ValueError exclusive_msg)).
  { intros [[-> ->]|[Hl Ht]]; [ reflexivity | ].
    destruct loss; [ | congruence ]. destruct train_step; [ | congruence ].
    reflexivity. }
  assert (Hone : (loss = None /\ train_step <> None)
                 \/ (loss <> None /\ train_step = None)
                 -> forall msg,
                    compile_model keras_compile truthy model optimizer loss
                      train_step validation_step kwargs
                    <> Raise (ValueError msg)).
  { intros Hx msg.
    assert (Hne : is_none loss <> is_none train_step).
    { destruct Hx as [[-> Ht]|[Hl ->]].
      - destruct train_step; [ discriminate | congruence ].
      - destruct loss; [ discriminate | congruence ]. }
    destruct (compile_model_guard_passes model optimizer loss train_step
                validation_step kwargs Hne) as [[tag E]|[m E]];
      rewrite E; discriminate. }
  split; [ | split; assumption ].
  split.
  - intros [msg E].
    destruct loss as [l|], train_step as [t|].
    + right. split; discriminate.
    + exfalso. refine (Hone _ msg E). right. split; [ discriminate | reflexivity ].
    + exfalso. refine (Hone _ msg E). left. split; [ reflexivity | discriminate ].
    + left. split; reflexivity.
  - intros H. exists exclusive_msg. apply Hboth, H.
Qed.

End CompileFacts.

Lemma compile_model_raises_iff_witness :
  let kc := fun (m : @KerasModel unit unit unit) (o : unit) (l : option unit)
                (_ : unit) =>
              inr {| m_optimizer := Some o; m_loss := l;
                     m_train_step := m_train_step m;
                     m_test_step := m_test_step m |} : string + KerasModel in
  let m0 := {| m_optimizer := None; m_loss := None;
               m_train_step := None; m_test_step := None |} in
  compile_model kc (fun _ => true) m0 tt (Some tt) (Some tt) None tt
  = Raise (ValueError exclusive_msg)
  /\ (forall msg,
        compile_model kc (fun _ => true) m0 tt (Some tt) None None tt
        <> Raise (ValueError msg)).
Proof.
  intros kc m0. split.
  - apply (proj1 (proj2 (compile_model_raises_iff kc (fun _ => true) m0 tt
                           (Some tt) (Some tt) None tt))).
    right. split; discriminate.
  - apply (proj2 (proj2 (compile_model_raises_iff kc (fun _ => true) m0 tt
                           (Some tt) None None tt))).
    right. split; [ discriminate | reflexivity ].
Defined.

(** *** [build_losses] *)

Lemma tensor_add_compatible (acc t : Tensor) :
  compatible acc t ->
  exists r, tensor_add acc t = Ok r
    /\ compatible acc r
    /\ forall i x y, t_values acc !! i = Some x -> t_values t !! i = Some y ->
         t_values r !! i = Some (elem_add (t_dtype acc) x y).
Proof.
  intros (Hd & Hs & Hl). unfold tensor_add, same_signature.
  rewrite !bool_decide_eq_true_2 by congruence. cbn [andb].
  eexists. split; [ reflexivity | ]. split.
  - unfold compatible. cbn. repeat split.
    rewrite length_zip_with. lia.
  - intros i x y Hx Hy. cbn. rewrite lookup_zip_with, Hx, Hy. reflexivity.
Qed.

Lemma add_from_sum (rest : list Tensor) : forall acc : Tensor,
  Forall (compatible acc) rest ->
  exists r, add_from acc rest = Ok r
    /\ compatible acc r
    /\ forall i x, t_values acc !! i = Some x ->
         t_values r !! i
         = Some (foldl (elem_add (t_dtype acc)) x (column i rest)).
Proof.
  induction rest as [|t rest IH]; intros acc Hall.
  - exists acc. split; [ reflexivity | ]. split; [ | intros; assumption ].
    unfold compatible; auto.
  - apply Forall_cons in Hall as [Ht Hrest].
    destruct (tensor_add_compatible acc t Ht) as (acc1 & E1 & Hc1 & Hv1).
    assert (Hrest1 : Forall (compatible acc1) rest).
    { eapply Forall_impl; [ exact Hrest | ].
      intros u (Hd & Hs & Hl). destruct Hc1 as (Hd1 & Hs1 & Hl1).
      unfold compatible. repeat split; congruence. }
    destruct (IH acc1 Hrest1) as (r & Er & Hcr & Hvr).
    exists r. cbn [add_from]. rewrite E1. split; [ exact Er | ]. split.
    + destruct Hc1 as (Hd1 & Hs1 & Hl1). destruct Hcr as (Hd2 & Hs2 & Hl2).
      unfold compatible. repeat split; congruence.
    + intros i x Hx.
      destruct Ht as (Hd & Hs & Hl).
      destruct (lookup_lt_is_Some_2 (t_values t) i) as [y Hy].
      { rewrite Hl. eapply lookup_lt_Some, Hx. }
      unfold column. cbn [omap list_omap]. fold (column i rest).
      rewrite Hy. cbn [foldl].
      rewrite (Hvr i _ (Hv1 i x y Hx Hy)).
      destruct Hc1 as (Hd1 & _). rewrite Hd1. reflexivity.
Qed.

(** C5. [build_losses] with [aux_losses=None] returns the scalar 0.0,
    whatever [labels] and [model_outputs] are; with a non-empty list of
    loss tensors of one shape and element type it returns their
    elementwise sum; and the result never depends on [labels] or
    [model_outputs]. *)
Theorem build_losses_sum :
  (forall labels model_outputs : pyval,
     build_losses labels model_outputs None = Ok (constant float_zero float32))
  /\ (forall (labels model_outputs : pyval) (t : Tensor) (rest : list Tensor),
        Forall (compatible t) rest ->
        exists total,
          build_losses labels model_outputs (Some (t :: rest)) = Ok total
          /\ t_dtype total = t_dtype t
          /\ t_shape total = t_shape t
          /\ length (t_values total) = length (t_values t)
          /\ forall i x, t_values t !! i = Some x ->
               t_values total !! i
               = Some (foldl (elem_add (t_dtype t)) x (column i rest)))
  /\ (forall (labels1 outputs1 labels2 outputs2 : pyval)
             (aux_losses : option (list Tensor)),
        build_losses labels1 outputs1 aux_losses
        = build_losses labels2 outputs2 aux_losses).
Proof.
  split; [ reflexivity | ]. split; [ | reflexivity ].
  intros labels outputs t rest Hall.
  destruct (add_from_sum rest t Hall) as (r & Er & (Hd & Hs & Hl) & Hv).
  exists r. unfold build_losses, add_n. auto.
Qed.

Lemma build_losses_sum_witness :
  exists total,
    build_losses VNone VNone (Some [loss_a; loss_b; loss_c]) = Ok total
    /\ t_values total !! 1%nat
        = Some (foldl (elem_add float32) (half 3) [half 5; half 1]).
Proof.
  destruct (proj1 (proj2 build_losses_sum) VNone VNone loss_a [loss_b; loss_c])
    as (total & E & _ & _ & _ & Hv).
  - repeat constructor.
  - exists total. split; [ exact E | ]. apply (Hv 1%nat). reflexivity.
Defined.

(** An empty list of auxiliary losses is not a sum of zero terms: the
    framework refuses it. *)
Example build_losses_empty_list :
  build_losses VNone VNone (Some []) = Raise (ValueError add_n_msg).
Proof. reflexivity. Qed.

(** Losses of different shapes have no elementwise sum. *)
Example build_losses_shape_mismatch :
  build_losses VNone VNone (Some [loss_a; constant float_zero float32])
  = Raise (ValueError add_n_msg).
Proof. reflexivity. Qed.

(** *** [Task.__init__] and [task_config] *)

Lemma wrap_or_unwrap_as_is (params : pyval) (h : heap) :
  stored_as_is h params = true -> wrap_or_unwrap params h = (params, h).
Proof. intros H. unfold wrap_or_unwrap. rewrite H. reflexivity. Qed.

Lemma instance_stored_as_is (id : positive) (o : obj) (h : heap) :
  h !! id = Some o -> class_of o = Instance ->
  stored_as_is h (VObj id) = true.
Proof. intros Hid Hc. cbn [stored_as_is]. rewrite Hid, Hc. reflexivity. Qed.

(** C9. For every parameter object that the attribute tracking of
    [tf.Module] stores as it is, which every configuration object is
    ([instance_stored_as_is]), [__init__] stores that very reference and
    [task_config] returns it, the identical object; no object is
    created, so nothing is copied, and every object other than the task
    itself, the parameter object among them, is left as it was. *)
Theorem task_config_round_trip (self : positive) (params : pyval) (h : heap) :
  stored_as_is h params = true ->
  task_config self (__init__ self params h) = Ok params
  /\ dom (__init__ self params h) = {[ self ]} ∪ dom h
  /\ (forall l : positive, l <> self -> __init__ self params h !! l = h !! l).
Proof.
  intros Has. unfold __init__. rewrite (wrap_or_unwrap_as_is _ _ Has).
  split; [ | split ].
  - unfold task_config. rewrite lookup_insert_eq. cbn [set_attr attrs].
    rewrite lookup_insert_eq. reflexivity.
  - apply dom_insert_L.
  - intros l Hl. apply lookup_insert_ne. congruence.
Qed.

Lemma task_config_round_trip_witness :
  task_config 3 (__init__ 3 (VObj 1) config_heap) = Ok (VObj 1)
  /\ __init__ 3 (VObj 1) config_heap !! 1%positive = Some config_object.
Proof.
  destruct (task_config_round_trip 3 (VObj 1) config_heap) as (Hget & _ & Hframe).
  - vm_compute. reflexivity.
  - split; [ exact Hget | ]. rewrite Hframe by discriminate.
    vm_compute. reflexivity.
Defined.

(** The hypothesis of the round trip is needed: a plain list, which is
    no configuration object, is not what the task holds afterwards;
    [task_config] returns a reference to a tracking wrapper that did not
    exist before. *)
Lemma list_config_is_wrapped :
  exists w : positive,
    task_config 3 (__init__ 3 (VList [VInt 1; VInt 2]) config_heap)
    = Ok (VObj w)
    /\ config_heap !! w = None
    /\ class_of <$> (__init__ 3 (VList [VInt 1; VInt 2]) config_heap !! w)
       = Some Wrapper
    /\ task_config 3 (__init__ 3 (VList [VInt 1; VInt 2]) config_heap)
       <> Ok (VList [VInt 1; VInt 2]).
Proof.
  exists 4%positive.
  assert (E : task_config 3 (__init__ 3 (VList [VInt 1; VInt 2]) config_heap)
              = Ok (VObj 4)) by (vm_compute; reflexivity).
  split; [ exact E | ]. split; [ vm_compute; reflexivity | ].
  split; [ vm_compute; reflexivity | ].
  rewrite E. discriminate.
Qed.

(** A plain dict given as the parameter is wrapped as well, while the
    configuration object next to it is returned as the same object. *)
Example dict_config_is_wrapped :
  task_config 3 (__init__ 3 (VObj 2) config_heap) = Ok (VObj 4)
  /\ task_config 3 (__init__ 3 (VObj 1) config_heap) = Ok (VObj 1).
Proof. split; vm_compute; reflexivity. Qed.

(** *** [train_step] and [validation_step] *)

Section StepFacts.
Context {Model Optimizer Metric Grads : Type}.
Variable call_model : Model -> pyval -> bool -> result pyval.
Variable model_losses : Model -> list Tensor.
Variable num_replicas_in_sync : Z.
Variable is_loss_scale_optimizer : Optimizer -> bool.
Variable get_scaled_loss : Optimizer -> Tensor -> Tensor.
Variable get_unscaled_gradients : Optimizer -> Grads -> Grads.
Variable tape_gradient : Model -> pyval -> Tensor -> Grads.
Variable apply_gradients : Optimizer -> Model -> Grads -> Optimizer * Model.
Variable update_state : Metric -> pyval -> pyval -> Metric.
Variable metric_name : Metric -> string.
Variable metric_result : Metric -> Tensor.
Variable has_compiled_metrics : Model -> bool.
Variable update_compiled_metrics : Model -> pyval -> pyval -> Model.
Variable model_metrics : Model -> list Metric.

Abbreviation the_train_step :=
  (train_step call_model model_losses num_replicas_in_sync
     is_loss_scale_optimizer get_scaled_loss get_unscaled_gradients
     tape_gradient apply_gradients update_state metric_name metric_result
     has_compiled_metrics update_compiled_metrics model_metrics).
Abbreviation the_train_on :=
  (train_on call_model model_losses num_replicas_in_sync
     is_loss_scale_optimizer get_scaled_loss get_unscaled_gradients
     tape_gradient apply_gradients update_state metric_name metric_result
     has_compiled_metrics update_compiled_metrics model_metrics).
Abbreviation the_validation_step :=
  (validation_step call_model model_losses update_state metric_name
     metric_result has_compiled_metrics update_compiled_metrics model_metrics).
Abbreviation the_validate_on :=
  (validate_on call_model model_losses update_state metric_name
     metric_result has_compiled_metrics update_compiled_metrics model_metrics).

Lemma split_inputs_whole (inputs : pyval) :
  (forall a b, inputs <> VTuple [a; b]) -> split_inputs inputs = (inputs, inputs).
Proof.
  intros Hne. unfold split_inputs.
  destruct inputs as [| | | | |items| |]; try reflexivity.
  destruct items as [|a [|b [|c rest]]]; try reflexivity.
  exfalso. apply (Hne a b). reflexivity.
Qed.

(** C10. In [train_step] and in [validation_step], an [inputs] that is
    not a tuple of exactly two items is used whole both as [features] and
    as [labels]; a tuple of two items, and only that, is taken apart. *)
Theorem steps_split_inputs (inputs : pyval) (model : Model)
    (optimizer : Optimizer) (metrics : option (list Metric)) :
  ((forall a b, inputs <> VTuple [a; b]) ->
     split_inputs inputs = (inputs, inputs)
     /\ the_train_step inputs model optimizer metrics
        = the_train_on inputs inputs model optimizer metrics
     /\ the_validation_step inputs model metrics
        = the_validate_on inputs inputs model metrics)
  /\ (forall features labels, inputs = VTuple [features; labels] ->
        split_inputs inputs = (features, labels)
        /\ the_train_step inputs model optimizer metrics
           = the_train_on features labels model optimizer metrics
        /\ the_validation_step inputs model metrics
           = the_validate_on features labels model metrics).
Proof.
  split.
  - intros Hne. unfold train_step, validation_step.
    rewrite (split_inputs_whole inputs Hne). auto.
  - intros features labels ->. unfold train_step, validation_step. auto.
Qed.

End StepFacts.

Lemma steps_split_inputs_witness :
  let pair_list := VList [VInt 1; VInt 2] in
  let forward := fun (_ : unit) (x : pyval) (_ : bool) => Ok x in
  let aux := fun _ : unit => [loss_a] in
  split_inputs pair_list = (pair_list, pair_list)
  /\ train_step forward aux 1 (fun _ : unit => false) (fun _ t => t)
       (fun _ (g : unit) => g) (fun _ _ _ => tt) (fun o m _ => (o, m))
       (fun (m : unit) _ _ => m) (fun _ => "m") (fun _ => loss_a)
       (fun _ => false) (fun m _ _ => m) (fun _ => [])
       pair_list tt tt None
     = train_on forward aux 1 (fun _ : unit => false) (fun _ t => t)
         (fun _ (g : unit) => g) (fun _ _ _ => tt) (fun o m _ => (o, m))
         (fun (m : unit) _ _ => m) (fun _ => "m") (fun _ => loss_a)
         (fun _ => false) (fun m _ _ => m) (fun _ => [])
         pair_list pair_list tt tt None.
Proof.
  intros pair_list forward aux.
  destruct (proj1 (steps_split_inputs forward aux 1 (fun _ : unit => false)
                     (fun _ t => t) (fun _ (g : unit) => g) (fun _ _ _ => tt)
                     (fun o m _ => (o, m)) (fun (m : unit) _ _ => m)
                     (fun _ => "m") (fun _ => loss_a) (fun _ => false)
                     (fun m _ _ => m) (fun _ => []) pair_list tt tt None))
    as (Hsplit & Htrain & _).
  - intros a b. discriminate.
  - split; [ exact Hsplit | exact Htrain ].
Defined.

(** A list of two items is not a tuple, and a tuple of three is not a
    pair: both are used whole. *)
Example split_inputs_list :
  split_inputs (VList [VInt 1; VInt 2])
  = (VList [VInt 1; VInt 2], VList [VInt 1; VInt 2]).
Proof. reflexivity. Qed.

Example split_inputs_triple :
  split_inputs (VTuple [VInt 1; VInt 2; VInt 3])
  = (VTuple [VInt 1; VInt 2; VInt 3], VTuple [VInt 1; VInt 2; VInt 3]).
Proof. reflexivity. Qed.

Example split_inputs_pair :
  split_inputs (VTuple [VInt 1; VInt 2]) = (VInt 1, VInt 2).
Proof. reflexivity. Qed.

End BaseTaskFacts.

Module TrainingFacts.
Import Training PyFacts.

(** *** The resume position *)

Lemma dict_get_Some {V : Type} (d : gmap string V) (k : string) (v dflt : V) :
  d !! k = Some v -> dict_get d k dflt = v.
Proof. unfold dict_get. intros ->. reflexivity. Qed.

Lemma dict_get_None {V : Type} (d : gmap string V) (k : string) (dflt : V) :
  d !! k = None -> dict_get d k dflt = dflt.
Proof. unfold dict_get. intros ->. reflexivity. Qed.

(** C1. Resuming with the [start_epoch] flag at -1: from a package
    without an [iteration] key, [start_epoch] is the package's [epoch]
    minus one plus one and [start_iter] is 0; from a package with an
    [iteration] key, [start_iter] is that value plus one and
    [start_epoch] is the package's [epoch] minus one. *)
Theorem resume_counters_position (package : gmap string pyval) (args : Args)
    (e a : Z) :
  start_epoch args = -1 ->
  package !! "epoch" = Some (VInt e) ->
  py_int (dict_get package "avg_loss" (VInt 0)) = Ok a ->
  (package !! "iteration" = None ->
     resume_counters package args = Ok (e - 1 + 1, VInt 0, a))
  /\ (forall it : Z, package !! "iteration" = Some (VInt it) ->
       resume_counters package args = Ok (e - 1, VInt (it + 1), a)).
Proof.
  intros Hflag He Ha. unfold resume_counters.
  rewrite (dict_get_Some _ _ _ _ He). cbn [py_int]. rewrite bind_Ok.
  split.
  - intros Hit. rewrite (dict_get_None _ _ _ Hit), bind_Ok, Ha, bind_Ok, Hflag.
    reflexivity.
  - intros it Hit. rewrite (dict_get_Some _ _ _ _ Hit).
    cbn [py_add as_number]. rewrite !bind_Ok, Ha, bind_Ok, Hflag.
    reflexivity.
Qed.

Lemma resume_counters_position_witness :
  resume_counters epoch_checkpoint (demo_args "last.pth") = Ok (3, VInt 0, 0)
  /\ resume_counters batch_checkpoint (demo_args "last.pth") = Ok (2, VInt 6, 0).
Proof.
  split.
  - apply (proj1 (resume_counters_position epoch_checkpoint
                    (demo_args "last.pth") 3 0 eq_refl eq_refl eq_refl)).
    reflexivity.
  - apply (proj2 (resume_counters_position batch_checkpoint
                    (demo_args "last.pth") 3 0 eq_refl eq_refl eq_refl) 5).
    reflexivity.
Defined.

(** An [iteration] key that holds [None] counts as no key at all. *)
Lemma resume_counters_iteration_none (package : gmap string pyval) (args : Args) :
  resume_counters (<["iteration" := VNone]> package) args
  = resume_counters (delete "iteration" package) args.
Proof.
  unfold resume_counters, dict_get.
  rewrite lookup_insert_eq, lookup_delete_eq.
  rewrite !lookup_insert_ne, !lookup_delete_ne by discriminate.
  reflexivity.
Qed.

(** A [start_epoch] flag other than -1 replaces the epoch of the
    package. *)
Lemma resume_counters_flag (package : gmap string pyval) (args : Args)
    (s0 a : Z) (it : pyval) :
  start_epoch args <> -1 ->
  resume_counters package args = Ok (s0, it, a) ->
  s0 = start_epoch args.
Proof.
  intros Hflag. unfold resume_counters. intros H.
  apply bind_Ok_inv in H as (e & _ & H).
  apply bind_Ok_inv in H as ([s1 it1] & _ & H).
  apply bind_Ok_inv in H as (a1 & _ & H).
  destruct (Z.eqb_spec (start_epoch args) (-1)) as [E|_]; [ contradiction | ].
  congruence.
Qed.

(** *** The batch loop and the epoch loop *)

Lemma feqb_inf_finite (x : float) :
  is_finite x = true ->
  feqb x float_inf || feqb x float_neg_inf = false.
Proof. destruct x as [s|s| |s m e]; try discriminate; destruct s; reflexivity. Qed.

Lemma feqb_inf_infinite (x : float) :
  x = float_inf \/ x = float_neg_inf ->
  feqb x float_inf || feqb x float_neg_inf = true.
Proof. intros [->| ->]; reflexivity. Qed.

Ltac bind_step H :=
  let a := fresh "a" in
  let E := fresh "E" in
  apply bind_Ok_inv in H; destruct H as (a & E & H); cbv beta in H.

Section MainFacts.
Context {Meter : Type}.
Variable params : Params.
Variable args : Args.
Variable n_batches : nat.
Variable batch_loss : Z -> Z -> list float * Z.
Variable tensor_sum : list float -> float.
Variable meter_update : Meter -> pyval -> Z -> Meter.
Variable eval_model : Z -> result (float * float).

Abbreviation St := (state Meter).
Abbreviation step := (batch_step batch_loss tensor_sum meter_update).
Abbreviation batches :=
  (batch_loop n_batches batch_loss tensor_sum meter_update).
Abbreviation body :=
  (epoch_body params args n_batches batch_loss tensor_sum meter_update eval_model).
Abbreviation loop :=
  (epoch_loop params args n_batches batch_loss tensor_sum meter_update eval_model).
Abbreviation run_epochs :=
  (epochs_run params args n_batches batch_loss tensor_sum meter_update eval_model).
Abbreviation reached := (@target_reached Meter params args).

(** C7. In a batch whose summed loss is plus or minus infinity, the
    value added to [avg_loss] and given to the [losses] meter is 0 and the
    warning is printed; in a batch whose summed loss is finite, it is the
    loss value [loss.data[0]] and nothing is printed. *)
Theorem batch_loss_guard (epoch i : Z) (st : St) (loss : list float) (size : Z) :
  batch_loss epoch i = (loss, size) ->
  (tensor_sum loss = float_inf \/ tensor_sum loss = float_neg_inf ->
   forall avg : pyval,
     py_add (avg_loss st) (VInt 0) = Ok avg ->
     exists st1 : St,
       batch_step batch_loss tensor_sum meter_update epoch i st = Ok st1
       /\ avg_loss st1 = avg
       /\ losses st1 = meter_update (losses st) (VInt 0) size
       /\ out st1 = out st ++ [Print inf_warning])
  /\ (is_finite (tensor_sum loss) = true ->
      forall (x : float) (rest : list float) (avg : pyval),
        loss = x :: rest ->
        py_add (avg_loss st) (VFloat x) = Ok avg ->
        exists st1 : St,
          batch_step batch_loss tensor_sum meter_update epoch i st = Ok st1
          /\ avg_loss st1 = avg
          /\ losses st1 = meter_update (losses st) (VFloat x) size
          /\ out st1 = out st).
Proof.
  intros Hbatch. unfold batch_step. rewrite Hbatch. split.
  - intros Hinf avg Hadd. unfold loss_value_of.
    rewrite (feqb_inf_infinite _ Hinf), bind_Ok. cbn [emit avg_loss].
    rewrite Hadd, bind_Ok.
    eexists. split; [ reflexivity | ]. cbn. auto.
  - intros Hfin x rest avg -> Hadd. unfold loss_value_of.
    rewrite (feqb_inf_finite _ Hfin), bind_Ok. cbn [emit avg_loss].
    rewrite Hadd, bind_Ok.
    eexists. split; [ reflexivity | ]. cbn. rewrite app_nil_r. auto.
Qed.

(** A summed loss that is not a number is neither infinite nor finite:
    it takes the branch of the loss value. *)
Lemma loss_value_of_nan (x : float) (rest : list float) :
  tensor_sum (x :: rest) = S754_nan ->
  loss_value_of tensor_sum (x :: rest) = Ok (VFloat x, []).
Proof. intros H. unfold loss_value_of. rewrite H. reflexivity. Qed.

(** The batch loop leaves the evaluation results alone. *)
Lemma batch_step_keeps (epoch i : Z) (st st1 : St) :
  step epoch i st = Ok st1 ->
  wer st1 = wer st /\ cer st1 = cer st /\ best_wer st1 = best_wer st
  /\ wer_results st1 = wer_results st /\ cer_results st1 = cer_results st.
Proof.
  unfold batch_step. destruct (batch_loss epoch i) as [loss size]. intros H.
  bind_step H. destruct a as [v printed]. bind_step H.
  injection H as <-. cbn. auto.
Qed.

Lemma batch_loop_keeps (todo : nat) : forall (epoch i : Z) (st st1 : St),
  batches todo epoch i st = Ok st1 ->
  wer st1 = wer st /\ cer st1 = cer st /\ best_wer st1 = best_wer st
  /\ wer_results st1 = wer_results st /\ cer_results st1 = cer_results st.
Proof.
  induction todo as [|todo IH]; intros epoch i st st1 H; cbn [batch_loop] in H.
  - injection H as <-. auto.
  - destruct (i =? Z.of_nat n_batches).
    + injection H as <-. auto.
    + bind_step H. apply IH in H. apply batch_step_keeps in E.
      destruct H as (-> & -> & -> & -> & ->). exact E.
Qed.

(** The flag an epoch ends with is the test of line 215 on the state it
    ends in. *)
Lemma epoch_body_flag (epoch : Z) (st st1 : St) (stop : bool) :
  body epoch st = Ok (st1, stop) -> stop = reached st1.
Proof.
  unfold epoch_body. intros H.
  repeat bind_step H.
  injection H as <- <-. reflexivity.
Qed.

(** C6 (as the code has it). The epoch loop returns exactly after the
    first epoch at whose end [params.exit_at_acc] is set and
    [best_wer <= args.acc], or after the last epoch of the range when no
    epoch ends so; [k] is the number of epochs that ran.  An exception
    that escapes an epoch ends the run instead. *)
Theorem epoch_loop_stops (todo : nat) : forall (epoch : Z) (st st1 : St),
  epoch_loop params args n_batches batch_loss tensor_sum meter_update
    eval_model todo epoch st = Ok st1
  <-> exists k : nat,
        (k <= todo)%nat
        /\ epochs_run params args n_batches batch_loss tensor_sum
             meter_update eval_model k epoch st = Ok st1
        /\ (forall (j : nat) (stj : St),
              (0 < j < k)%nat ->
              epochs_run params args n_batches batch_loss tensor_sum
                meter_update eval_model j epoch st = Ok stj ->
              target_reached params args stj = false)
        /\ (k = todo
            \/ ((0 < k)%nat /\ target_reached params args st1 = true)).
Proof.
  induction todo as [|todo IH]; intros epoch st st1; split.
  - cbn [epoch_loop]. intros H. injection H as <-.
    exists 0%nat. split; [ lia | ]. split; [ reflexivity | ].
    split; [ intros; lia | left; reflexivity ].
  - intros (k & Hk & Hrun & _ & _).
    assert (k = 0%nat) as -> by lia. exact Hrun.
  - cbn [epoch_loop]. intros H. bind_step H. destruct a as [st2 stop].
    pose proof (epoch_body_flag _ _ _ _ E) as Hflag.
    destruct stop.
    + injection H as <-. exists 1%nat. split; [ lia | ].
      split; [ cbn [epochs_run]; rewrite E; reflexivity | ].
      split; [ intros; lia | right; split; [ lia | congruence ] ].
    + apply IH in H as (k & Hk & Hrun & Hno & Hend).
      exists (S k). split; [ lia | ].
      split; [ cbn [epochs_run]; rewrite E; exact Hrun | ].
      split.
      * intros j stj Hj Hrj. destruct j as [|j]; [ lia | ].
        cbn [epochs_run] in Hrj. rewrite E in Hrj. cbn in Hrj.
        destruct j as [|j].
        -- injection Hrj as <-. congruence.
        -- apply (Hno (S j) stj); [ lia | exact Hrj ].
      * destruct Hend as [->|[Hpos Hr]]; [ left; reflexivity | right ].
        split; [ lia | exact Hr ].
  - intros (k & Hk & Hrun & Hno & Hend).
    destruct k as [|k].
    { destruct Hend as [Hend|[Hpos _]]; [ discriminate | lia ]. }
    cbn [epochs_run] in Hrun. bind_step Hrun. destruct a as [st2 stop].
    pose proof (epoch_body_flag _ _ _ _ E) as Hflag.
    assert (Hfirst : run_epochs 1 epoch st = Ok st2).
    { cbn [epochs_run]. rewrite E. reflexivity. }
    cbn [epoch_loop]. rewrite E. cbn.
    destruct stop.
    + destruct k as [|k].
      * exact Hrun.
      * assert (reached st2 = false) by (apply (Hno 1%nat); [ lia | exact Hfirst ]).
        congruence.
    + apply IH. exists k. split; [ lia | ]. split; [ exact Hrun | ]. split.
      * intros j stj Hj Hrj. apply (Hno (S j) stj); [ lia | ].
        cbn [epochs_run]. rewrite E. exact Hrj.
      * destruct Hend as [Hend|[_ Hr]]; [ left; lia | ].
        destruct k as [|k]; [ | right; split; [ lia | exact Hr ] ].
        injection Hrun as <-. congruence.
Qed.

(** Without [params.exit_at_acc] the loop always uses up the range. *)
Lemma epoch_loop_without_exit (todo : nat) : forall (epoch : Z) (st : St),
  exit_at_acc params = false ->
  loop todo epoch st = run_epochs todo epoch st.
Proof.
  induction todo as [|todo IH]; intros epoch st Hoff; [ reflexivity | ].
  cbn [epoch_loop epochs_run].
  destruct (body epoch st) as [[st2 stop]|e] eqn:E; [ | reflexivity ].
  apply epoch_body_flag in E. unfold target_reached in E.
  rewrite Hoff in E. cbn in E. subst stop. cbn. apply IH, Hoff.
Qed.

(** *** A failing evaluation *)

Lemma evaluate_failure (epoch : Z) (st : St) :
  eval_model epoch = Raise RuntimeError ->
  evaluate eval_model epoch st = Ok (emit [Print skip_warning] st).
Proof. unfold evaluate. intros ->. reflexivity. Qed.

(** When the evaluation fails and no earlier one has bound [wer], the
    epoch does not complete: reading [wer] raises. *)
Lemma eval_failure_unbound (epoch : Z) (st : St) :
  wer st = None ->
  eval_model epoch = Raise RuntimeError ->
  forall r, body epoch st <> Ok r.
Proof.
  intros Hwer Hfail r H. unfold epoch_body in H.
  bind_step H. bind_step H. bind_step H.
  rewrite (evaluate_failure _ _ Hfail) in H.
  bind_step H. injection E2 as <-. bind_step H. bind_step H.
  apply batch_loop_keeps in E0 as (Hw & _).
  cbn in E3. rewrite Hw, Hwer in E3. discriminate.
Qed.

(** When the evaluation fails after an earlier one succeeded, the values
    that one left in [wer] and [cer] are what the epoch records, and the
    warning is printed. *)
Lemma eval_failure_stale (epoch : Z) (st st1 : St) (w c : float) (stop : bool) :
  wer st = Some w -> cer st = Some c ->
  eval_model epoch = Raise RuntimeError ->
  body epoch st = Ok (st1, stop) ->
  setitem (wer_results st) epoch w = Ok (wer_results st1)
  /\ setitem (cer_results st) epoch c = Ok (cer_results st1)
  /\ wer st1 = Some w /\ cer st1 = Some c
  /\ In (Print skip_warning) (out st1).
Proof.
  intros Hwer Hcer Hfail H. unfold epoch_body in H.
  bind_step H. bind_step H. bind_step H.
  rewrite (evaluate_failure _ _ Hfail) in H.
  bind_step H. injection E2 as <-.
  bind_step H. bind_step H. bind_step H. bind_step H. bind_step H. bind_step H.
  apply batch_loop_keeps in E0 as (Hw & Hc & _ & Hwr & Hcr).
  cbn in E3, E4, E5, E6.
  rewrite Hw, Hwer in E3. injection E3 as <-.
  rewrite Hc, Hcer in E5. injection E5 as <-.
  rewrite Hwr in E4. rewrite Hcr in E6.
  injection H as <- _.
  destruct (checkpoint args), (improves _ _); cbn;
    rewrite ?Hw, ?Hc, ?Hwer, ?Hcer;
    (repeat split; try assumption; try reflexivity);
    rewrite ?in_app_iff; cbn; tauto.
Qed.

End MainFacts.

Lemma batch_loss_guard_witness :
  (exists st1,
     batch_step (fun _ _ => ([float_neg_inf], 4)) sum_in_order demo_update
       0 0 demo_state = Ok st1
     /\ avg_loss st1 = VInt 0
     /\ losses st1 = [(VInt 0, 4)]
     /\ out st1 = [Print inf_warning])
  /\ (exists st1,
       batch_step demo_batch_loss sum_in_order demo_update 0 1 demo_state
       = Ok st1
       /\ avg_loss st1 = VFloat (flt 1)
       /\ losses st1 = [(VFloat (flt 1), 4)]
       /\ out st1 = []).
Proof.
  split.
  - apply (proj1 (batch_loss_guard (fun _ _ => ([float_neg_inf], 4))
                    sum_in_order demo_update 0 0 demo_state
                    [float_neg_inf] 4 eq_refl)).
    + right. reflexivity.
    + reflexivity.
  - apply (proj2 (batch_loss_guard demo_batch_loss sum_in_order demo_update
                    0 1 demo_state [flt 1] 4 eq_refl)
             eq_refl (flt 1) [] (VFloat (flt 1)) eq_refl).
    vm_compute. reflexivity.
Defined.

Lemma epoch_loop_stops_witness :
  exists st1,
    demo_epochs (demo_params 3 true) eval_improving 2 = Ok st1
    /\ demo_loop (demo_params 3 true) eval_improving 3 = Ok st1.
Proof.
  eexists. split; [ vm_compute; reflexivity | ].
  apply (proj2 (epoch_loop_stops (demo_params 3 true) (demo_args "") 2%nat
                  demo_batch_loss sum_in_order demo_update eval_improving
                  3%nat 0 demo_state _)).
  exists 2%nat. split; [ lia | ]. split; [ vm_compute; reflexivity | ]. split.
  - intros j stj Hj Hrun. assert (j = 1%nat) as -> by lia.
    vm_compute in Hrun. injection Hrun as <-. vm_compute. reflexivity.
  - right. split; [ lia | vm_compute; reflexivity ].
Defined.

(** C6 (as the spec has it) fails: with [params.exit_at_acc] off, the
    word error rate 10 is below the target 23 after the first epoch, and
    the loop still runs the second epoch and records its result. *)
Lemma target_met_loop_goes_on :
  exists st1 st2,
    demo_epochs (demo_params 2 false) eval_steady 1 = Ok st1
    /\ wer_target_met (demo_args "") st1 = true
    /\ demo_loop (demo_params 2 false) eval_steady 2 = Ok st2
    /\ wer_results st1 !! 1%nat = Some None
    /\ wer_results st2 !! 1%nat = Some (Some (to_float32 (flt 10))).
Proof.
  eexists. eexists.
  split; [ vm_compute; reflexivity | ].
  split; [ vm_compute; reflexivity | ].
  split; [ vm_compute; reflexivity | ].
  split; vm_compute; reflexivity.
Qed.

(** With [params.exit_at_acc] on, the same run stops after the first
    epoch. *)
Example target_met_loop_stops :
  demo_loop (demo_params 2 true) eval_steady 2
  = demo_epochs (demo_params 2 true) eval_steady 1.
Proof. vm_compute. reflexivity. Qed.

(** C8. A fresh run of two epochs whose first evaluation raises
    [RuntimeError]: the exception is caught, but the epoch loop does not
    go on to the next epoch; reading the unbound [wer] ends the run with
    [UnboundLocalError]. *)
Theorem eval_failure_first_epoch :
  demo_main (demo_params 2 false) "" ∅ eval_failing_first
  = Raise (UnboundLocalError "wer").
Proof. vm_compute. reflexivity. Qed.

(** The same failure after the second epoch of three is survived: the
    word error rate 30 of the first epoch is recorded again for the
    second. *)
Example eval_failure_second_epoch :
  exists st,
    demo_main (demo_params 3 false) "" ∅ eval_failing_second = Ok st
    /\ wer_results st
       = [Some (to_float32 (flt 30)); Some (to_float32 (flt 30));
          Some (to_float32 (flt 28))]
    /\ In (Print skip_warning) (out st).
Proof.
  eexists. split; [ vm_compute; reflexivity | ].
  split; [ vm_compute; reflexivity | ].
  vm_compute. tauto.
Qed.

(** Resuming from the two sample checkpoints, inside [main]. *)
Example resume_after_epoch :
  exists st,
    resume (demo_args "last.pth") (fun _ => Ok epoch_checkpoint)
      (fun _ => Ok tt) (fun _ => Ok (flt 1)) ([] : list (pyval * Z))
      [None; None; None; None] [None; None; None; None]
      [None; None; None; None]
    = Ok (3, st)
    /\ start_iter st = VInt 0.
Proof. eexists. split; vm_compute; reflexivity. Qed.

Example resume_in_epoch :
  exists st,
    resume (demo_args "last.pth") (fun _ => Ok batch_checkpoint)
      (fun _ => Ok tt) (fun _ => Ok (flt 1)) ([] : list (pyval * Z))
      [None; None; None; None] [None; None; None; None]
      [None; None; None; None]
    = Ok (2, st)
    /\ start_iter st = VInt 6.
Proof. eexists. split; vm_compute; reflexivity. Qed.

End TrainingFacts.

(* ===================================================================== *)
(** ** Further properties: the image classification driver *)
(* ===================================================================== *)

Module ResnetFacts.
Import ResnetCtl ResnetRun PyFacts.

(** X1. While the epoch has steps left and a loop runs several steps,
    [_steps_to_run] returns at least one step, at most [steps_per_loop],
    and never more than the epoch still has; it returns less than
    [steps_per_loop] only to stop exactly at the end of the epoch. *)
Theorem steps_to_run_within_epoch
    (steps_in_current_epoch steps_per_epoch steps_per_loop : Z) :
  1 < steps_per_loop ->
  steps_in_current_epoch < steps_per_epoch ->
  exists n,
    _steps_to_run steps_in_current_epoch steps_per_epoch steps_per_loop = Ok n
    /\ 1 <= n <= steps_per_loop
    /\ steps_in_current_epoch + n <= steps_per_epoch
    /\ (n = steps_per_loop \/ steps_in_current_epoch + n = steps_per_epoch).
Proof.
  intros Hl Hc. unfold _steps_to_run.
  destruct (Z.leb_spec steps_per_loop 0); [ lia | ].
  destruct (Z.eqb_spec steps_per_loop 1); [ lia | ].
  eexists. split; [ reflexivity | ]. lia.
Qed.

Lemma steps_to_run_within_epoch_witness :
  exists n, _steps_to_run 95 100 30 = Ok n
    /\ 1 <= n <= 30 /\ 95 + n <= 100 /\ (n = 30 \/ 95 + n = 100).
Proof. apply (steps_to_run_within_epoch 95 100 30); lia. Defined.

(** X2. Once the epoch has no step left, a loop of one step is still
    told to run one step, past the end of the epoch, while a loop of
    several steps is told to run a number of steps that is not
    positive. *)
Theorem steps_to_run_epoch_done
    (steps_in_current_epoch steps_per_epoch steps_per_loop : Z) :
  steps_per_epoch <= steps_in_current_epoch ->
  (steps_per_loop = 1 ->
     _steps_to_run steps_in_current_epoch steps_per_epoch steps_per_loop = Ok 1
     /\ steps_per_epoch < steps_in_current_epoch + 1)
  /\ (1 < steps_per_loop ->
      exists n,
        _steps_to_run steps_in_current_epoch steps_per_epoch steps_per_loop = Ok n
        /\ n <= 0).
Proof.
  intros Hdone. unfold _steps_to_run. split.
  - intros ->. split; [ reflexivity | lia ].
  - intros Hl.
    destruct (Z.leb_spec steps_per_loop 0); [ lia | ].
    destruct (Z.eqb_spec steps_per_loop 1); [ lia | ].
    eexists. split; [ reflexivity | lia ].
Qed.

Lemma steps_to_run_epoch_done_witness :
  (_steps_to_run 100 100 1 = Ok 1 /\ 100 < 100 + 1)
  /\ exists n, _steps_to_run 103 100 30 = Ok n /\ n <= 0.
Proof.
  split.
  - apply (proj1 (steps_to_run_epoch_done 100 100 1 ltac:(lia))). reflexivity.
  - apply (proj2 (steps_to_run_epoch_done 103 100 30 ltac:(lia))). lia.
Defined.

(** The first two components of a returned triple, by cases on the
    [train_steps] flag. *)
Lemma get_num_train_iterations_shape (NUM_IMAGES : gmap string Z)
    (flags_obj : flags) (num_train steps epochs_out eval_steps : Z) :
  NUM_IMAGES !! "train" = Some num_train ->
  get_num_train_iterations NUM_IMAGES flags_obj
    = Ok (steps, epochs_out, eval_steps) ->
  (steps, epochs_out)
  = match train_steps flags_obj with
    | Some override =>
        if override =? 0
        then (num_train / batch_size flags_obj, train_epochs flags_obj)
        else (Z.min override (num_train / batch_size flags_obj), 1)
    | None => (num_train / batch_size flags_obj, train_epochs flags_obj)
    end.
Proof.
  intros Ht H. unfold get_num_train_iterations in H.
  rewrite (getitem_Some _ _ _ Ht), bind_Ok in H.
  unfold floordiv in H.
  destruct (Z.eqb_spec (batch_size flags_obj) 0) as [|Hb]; [ discriminate | ].
  rewrite bind_Ok in H.
  destruct (train_steps flags_obj) as [ov|].
  - cbn [flag_truthy] in H. destruct (ov =? 0); cbn [negb] in H;
      apply bind_Ok_inv in H as (nv & _ & H);
      apply bind_Ok_inv in H as (es & _ & H); injection H as <- <- <-;
      reflexivity.
  - apply bind_Ok_inv in H as (nv & _ & H).
    apply bind_Ok_inv in H as (es & _ & H). injection H as <- <- <-.
    reflexivity.
Qed.

(** X3. Whatever [get_num_train_iterations] returns, the steps per epoch
    never exceed [NUM_IMAGES['train'] // batch_size]; a nonzero
    [train_steps] flag forces one epoch and is itself an upper bound;
    without it (flag [None] or 0) the full count and the [train_epochs]
    flag are returned. *)
Theorem get_num_train_iterations_bounds (NUM_IMAGES : gmap string Z)
    (flags_obj : flags) (num_train steps epochs_out eval_steps : Z) :
  NUM_IMAGES !! "train" = Some num_train ->
  get_num_train_iterations NUM_IMAGES flags_obj
    = Ok (steps, epochs_out, eval_steps) ->
  steps <= num_train / batch_size flags_obj
  /\ (forall override, train_steps flags_obj = Some override -> override <> 0 ->
        steps = Z.min override (num_train / batch_size flags_obj)
        /\ epochs_out = 1)
  /\ (train_steps flags_obj = None \/ train_steps flags_obj = Some 0 ->
        steps = num_train / batch_size flags_obj
        /\ epochs_out = train_epochs flags_obj).
Proof.
  intros Ht H.
  pose proof (get_num_train_iterations_shape _ _ _ _ _ _ Ht H) as Hs.
  destruct (train_steps flags_obj) as [ov|].
  - destruct (Z.eqb_spec ov 0) as [E0|Hnz]; injection Hs as -> ->.
    + split; [ lia | ]. split; [ | auto ].
      intros o Ho Hne. congruence.
    + split; [ lia | ]. split.
      * intros o Ho _. assert (o = ov) as -> by congruence. auto.
      * intros [E|E]; congruence.
  - injection Hs as -> ->.
    split; [ lia | ]. split; [ intros o E; discriminate | auto ].
Qed.

Lemma get_num_train_iterations_bounds_witness :
  get_num_train_iterations imagenet_like
    {| batch_size := 10; train_epochs := 5; train_steps := Some 250 |}
  = Ok (100, 1, 5000)
  /\ 100 <= 1000 / 10
  /\ 100 = Z.min 250 (1000 / 10).
Proof.
  destruct (get_num_train_iterations_bounds imagenet_like
              {| batch_size := 10; train_epochs := 5; train_steps := Some 250 |}
              1000 100 1 5000 eq_refl eq_refl) as (Hle & Hov & _).
  split; [ reflexivity | ]. split; [ exact Hle | ].
  apply (Hov 250 eq_refl). lia.
Defined.

(** X4. [get_num_train_iterations] fails with [ZeroDivisionError] on a
    zero batch size, with [KeyError] when the table lacks the training
    count, and with [KeyError] when it lacks the validation count. *)
Theorem get_num_train_iterations_errors (NUM_IMAGES : gmap string Z)
    (flags_obj : flags) :
  (NUM_IMAGES !! "train" = None ->
     get_num_train_iterations NUM_IMAGES flags_obj = Raise (KeyError "train"))
  /\ (is_Some (NUM_IMAGES !! "train") -> batch_size flags_obj = 0 ->
      get_num_train_iterations NUM_IMAGES flags_obj = Raise ZeroDivisionError)
  /\ (is_Some (NUM_IMAGES !! "train") -> batch_size flags_obj <> 0 ->
      NUM_IMAGES !! "validation" = None ->
      get_num_train_iterations NUM_IMAGES flags_obj
      = Raise (KeyError "validation")).
Proof.
  unfold get_num_train_iterations, getitem. repeat split.
  - intros ->. reflexivity.
  - intros [nt ->] ->. reflexivity.
  - intros [nt ->] Hb Hv. rewrite bind_Ok, (floordiv_nonzero _ _ Hb), bind_Ok, Hv.
    destruct (train_steps flags_obj) as [ov|]; [ | reflexivity ].
    destruct (flag_truthy (Some ov)); reflexivity.
Qed.

Lemma get_num_train_iterations_errors_witness :
  get_num_train_iterations ∅
    {| batch_size := 10; train_epochs := 5; train_steps := None |}
  = Raise (KeyError "train")
  /\ get_num_train_iterations imagenet_like
       {| batch_size := 0; train_epochs := 5; train_steps := None |}
     = Raise ZeroDivisionError
  /\ get_num_train_iterations {[ "train" := 1000 ]}
       {| batch_size := 10; train_epochs := 5; train_steps := Some 7 |}
     = Raise (KeyError "validation").
Proof.
  split; [ | split ].
  - apply (proj1 (get_num_train_iterations_errors ∅ _)). reflexivity.
  - apply (proj1 (proj2 (get_num_train_iterations_errors imagenet_like _)));
      [ eexists; reflexivity | reflexivity ].
  - apply (proj2 (proj2 (get_num_train_iterations_errors {[ "train" := 1000 ]} _)));
      [ eexists; reflexivity | discriminate | reflexivity ].
Defined.



(** X6. The statistics [build_stats] returns hold the training loss and
    accuracy only together with the evaluation loss and accuracy: with
    [skip_eval] set none of the four is reported, without it all four
    are. *)
Theorem build_stats_skip_eval (runnable : Runnable)
    (time_callback : option TimeHistory) :
  let stats := build_stats runnable time_callback in
  (r_skip_eval runnable = true ->
     stats !! "eval_loss" = None /\ stats !! "eval_acc" = None
     /\ stats !! "train_loss" = None /\ stats !! "train_acc" = None)
  /\ (r_skip_eval runnable = false ->
      stats !! "eval_loss" = Some (test_loss runnable)
      /\ stats !! "eval_acc" = Some (test_accuracy runnable)
      /\ stats !! "train_loss" = Some (train_loss runnable)
      /\ stats !! "train_acc" = Some (train_accuracy runnable)).
Proof.
  cbn zeta. unfold build_stats. split; intros ->;
    destruct time_callback as [tc|]; try destruct (epoch_runtime_log tc);
    repeat split; simplify_map_eq; reflexivity.
Qed.

Lemma build_stats_skip_eval_witness :
  build_stats (sample_runnable true) (Some (sample_callback [VInt 1]))
    !! "train_loss" = None
  /\ build_stats (sample_runnable false) None !! "train_loss" = Some (VInt 3).
Proof.
  split.
  - apply (proj1 (build_stats_skip_eval (sample_runnable true)
                    (Some (sample_callback [VInt 1])))). reflexivity.
  - apply (proj2 (build_stats_skip_eval (sample_runnable false) None)).
    reflexivity.
Defined.

(** X7. The keys of the statistics: the four loss and accuracy entries
    unless [skip_eval] is set; the two timing entries when a time
    callback is given; and the throughput entry only with a callback
    whose [epoch_runtime_log] is not empty. *)
Theorem build_stats_keys (runnable : Runnable)
    (time_callback : option TimeHistory) :
  dom (build_stats runnable time_callback)
  = (if r_skip_eval runnable then ∅
     else {[ "eval_loss"; "eval_acc"; "train_loss"; "train_acc" ]})
    ∪ match time_callback with
      | None => ∅
      | Some tc =>
          {[ "step_timestamp_log"; "train_finish_time" ]}
          ∪ match epoch_runtime_log tc with
            | [] => ∅
            | _ :: _ => {[ "avg_exp_per_second" ]}
            end
      end.
Proof.
  unfold build_stats.
  destruct (r_skip_eval runnable), time_callback as [tc|];
    try destruct (epoch_runtime_log tc);
    rewrite ?dom_insert_L, ?dom_empty_L; set_solver.
Qed.

End ResnetFacts.

(* ===================================================================== *)
(** ** Further properties: the task abstraction *)
(* ===================================================================== *)

Module TaskFacts.
Import BaseTask PyFacts.

Lemma new_task_of_instance (config : positive) (o : obj) (h : heap) :
  h !! config = Some o ->
  class_of o = Instance ->
  new_task (VObj config) h
  = (fresh (dom h),
     <[fresh (dom h) := set_attr "_task_config" (VObj config) (blank Trackable)]>
       (<[fresh (dom h) := blank Trackable]> h)).
Proof.
  intros Hcfg Hclass. unfold new_task, __init__.
  assert (Hf : config <> fresh (dom h)).
  { intros E. apply (is_fresh (dom h)). rewrite <- E.
    apply elem_of_dom. eauto. }
  rewrite (BaseTaskFacts.wrap_or_unwrap_as_is (VObj config)
             (<[fresh (dom h) := blank Trackable]> h)).
  - rewrite lookup_insert_eq. reflexivity.
  - apply (BaseTaskFacts.instance_stored_as_is config o); [ | exact Hclass ].
    rewrite lookup_insert_ne by congruence. exact Hcfg.
Qed.

(** X8. Two tasks built from the same configuration object are two
    objects, and each returns a reference to that one object as its
    [task_config]: the configuration is shared, not copied, it is left
    as it was, and building the second task leaves the first as it
    was. *)
Theorem tasks_share_config (config : positive) (o : obj) (h : heap) :
  h !! config = Some o ->
  class_of o = Instance ->
  let '(first, h1) := new_task (VObj config) h in
  let '(second, h2) := new_task (VObj config) h1 in
  first <> second
  /\ task_config first h2 = Ok (VObj config)
  /\ task_config second h2 = Ok (VObj config)
  /\ h2 !! first = h1 !! first
  /\ h2 !! config = Some o.
Proof.
  intros Hcfg Hclass.
  rewrite (new_task_of_instance config o h Hcfg Hclass).
  set (first := fresh (dom h)).
  assert (Hf : config <> first).
  { intros E. apply (is_fresh (dom h)). fold first. rewrite <- E.
    apply elem_of_dom. eauto. }
  set (h1 := <[first := set_attr "_task_config" (VObj config) (blank Trackable)]>
               (<[first := blank Trackable]> h)).
  assert (Hcfg1 : h1 !! config = Some o).
  { unfold h1. rewrite !lookup_insert_ne by congruence. exact Hcfg. }
  rewrite (new_task_of_instance config o h1 Hcfg1 Hclass).
  set (second := fresh (dom h1)).
  assert (Hin : first ∈ dom h1).
  { apply elem_of_dom. unfold h1. rewrite lookup_insert_eq. eauto. }
  assert (Hne : first <> second).
  { intros E. apply (is_fresh (dom h1)). fold second. rewrite <- E. exact Hin. }
  assert (Hs : config <> second).
  { intros E. apply (is_fresh (dom h1)). fold second. rewrite <- E.
    apply elem_of_dom. eauto. }
  split; [ exact Hne | ]. split; [ | split; [ | split ] ].
  - unfold task_config. rewrite !lookup_insert_ne by congruence.
    unfold h1. rewrite lookup_insert_eq. cbn [set_attr attrs].
    rewrite lookup_insert_eq. reflexivity.
  - unfold task_config. rewrite lookup_insert_eq. cbn [set_attr attrs].
    rewrite lookup_insert_eq. reflexivity.
  - rewrite !lookup_insert_ne by congruence. reflexivity.
  - rewrite !lookup_insert_ne by congruence. exact Hcfg1.
Qed.

Lemma tasks_share_config_witness :
  task_config 4 (new_task (VObj 1) (new_task (VObj 1) config_heap).2).2
  = Ok (VObj 1)
  /\ task_config 5 (new_task (VObj 1) (new_task (VObj 1) config_heap).2).2
     = Ok (VObj 1)
  /\ (new_task (VObj 1) (new_task (VObj 1) config_heap).2).2 !! 1%positive
     = Some config_object.
Proof.
  pose proof (tasks_share_config 1 config_object config_heap
                ltac:(vm_compute; reflexivity) eq_refl) as H.
  assert (E1 : new_task (VObj 1) config_heap
               = (4%positive, (new_task (VObj 1) config_heap).2))
    by (vm_compute; reflexivity).
  rewrite E1 in H.
  assert (E2 : new_task (VObj 1) (new_task (VObj 1) config_heap).2
               = (5%positive,
                  (new_task (VObj 1) (new_task (VObj 1) config_heap).2).2))
    by (vm_compute; reflexivity).
  rewrite E2 in H. destruct H as (_ & H1 & H2 & _ & H3). auto.
Defined.

(** X9. [compile_model] binds the optimizer of the compiled model, not
    its own [optimizer] argument, into the train step it installs; it
    installs a train step only when one is given, a test step only when
    a validation step is given, and otherwise leaves what Keras compiled
    as it is. *)
Theorem compile_model_installs {Optimizer Loss Kwargs Callable : Type}
    (keras_compile : @KerasModel Optimizer Loss Callable -> Optimizer
                     -> option Loss -> Kwargs
                     -> string + @KerasModel Optimizer Loss Callable)
    (truthy : Callable -> bool)
    (model compiled : KerasModel) (optimizer : Optimizer)
    (loss : option Loss) (train_step validation_step : option Callable)
    (kwargs : Kwargs) :
  is_none loss <> is_none train_step ->
  keras_compile model optimizer loss kwargs = inr compiled ->
  (forall f, train_step = Some f -> truthy f = true) ->
  (forall g, validation_step = Some g -> truthy g = true) ->
  exists result_model,
    compile_model keras_compile truthy model optimizer loss train_step
      validation_step kwargs = Ok result_model
    /\ m_optimizer result_model = m_optimizer compiled
    /\ m_loss result_model = m_loss compiled
    /\ m_train_step result_model
       = match train_step with
         | Some f => Some {| p_func := f; p_optimizer := m_optimizer compiled |}
         | None => m_train_step compiled
         end
    /\ m_test_step result_model
       = match validation_step with
         | Some g => Some {| p_func := g; p_optimizer := None |}
         | None => m_test_step compiled
         end.
Proof.
  intros Hne Hk Hf Hg. unfold compile_model.
  destruct (Bool.eqb (is_none loss) (is_none train_step)) eqn:E.
  { apply Bool.eqb_prop in E. contradiction. }
  rewrite Hk. eexists. split; [ reflexivity | ].
  destruct train_step as [f|], validation_step as [g|];
    rewrite ?(Hf _ eq_refl), ?(Hg _ eq_refl); cbn; auto.
Qed.

Lemma compile_model_installs_witness :
  let kc := fun (m : @KerasModel nat unit unit) (o : nat) (l : option unit)
                (_ : unit) =>
              inr {| m_optimizer := Some (o + 1)%nat; m_loss := l;
                     m_train_step := m_train_step m;
                     m_test_step := m_test_step m |} : string + KerasModel in
  let m0 := {| m_optimizer := None; m_loss := None;
               m_train_step := None; m_test_step := None |} in
  exists result_model,
    compile_model kc (fun _ => true) m0 5%nat None (Some tt) None tt
    = Ok result_model
    /\ m_train_step result_model
       = Some {| p_func := tt; p_optimizer := Some 6%nat |}.
Proof.
  intros kc m0.
  destruct (compile_model_installs kc (fun _ => true) m0
              {| m_optimizer := Some 6%nat; m_loss := None;
                 m_train_step := None; m_test_step := None |}
              5%nat None (Some tt) None tt)
    as (r & E & _ & _ & Ht & _).
  - discriminate.
  - reflexivity.
  - reflexivity.
  - reflexivity.
  - exists r. split; [ exact E | exact Ht ].
Defined.

Section StepMore.
Context {Model Optimizer Metric Grads : Type}.
Variable call_model : Model -> pyval -> bool -> result pyval.
Variable model_losses : Model -> list Tensor.
Variable num_replicas_in_sync : Z.
Variable is_loss_scale_optimizer : Optimizer -> bool.
Variable get_scaled_loss : Optimizer -> Tensor -> Tensor.
Variable get_unscaled_gradients : Optimizer -> Grads -> Grads.
Variable tape_gradient : Model -> pyval -> Tensor -> Grads.
Variable apply_gradients : Optimizer -> Model -> Grads -> Optimizer * Model.
Variable update_state : Metric -> pyval -> pyval -> Metric.
Variable metric_name : Metric -> string.
Variable metric_result : Metric -> Tensor.
Variable has_compiled_metrics : Model -> bool.
Variable update_compiled_metrics : Model -> pyval -> pyval -> Model.
Variable model_metrics : Model -> list Metric.

Abbreviation update_logs := (logs_update metric_name metric_result).
Abbreviation make_report :=
  (report update_state metric_name metric_result has_compiled_metrics
     update_compiled_metrics model_metrics).

Lemma logs_update_keeps (ms : list Metric) :
  forall (logs : gmap string Tensor) (k : string),
    is_Some (logs !! k) -> is_Some (update_logs logs ms !! k).
Proof.
  induction ms as [|m ms IH]; intros logs k Hk; [ exact Hk | ].
  cbn [logs_update foldl]. apply IH.
  destruct (decide (metric_name m = k)) as [->|Hne].
  - rewrite lookup_insert_eq. eauto.
  - rewrite lookup_insert_ne by exact Hne. exact Hk.
Qed.

Lemma logs_update_other (ms : list Metric) :
  forall (logs : gmap string Tensor) (k : string),
    (forall m, m ∈ ms -> metric_name m <> k) ->
    update_logs logs ms !! k = logs !! k.
Proof.
  induction ms as [|m ms IH]; intros logs k Hk; [ reflexivity | ].
  cbn [logs_update foldl]. unfold logs_update in IH. rewrite IH.
  - apply lookup_insert_ne. apply Hk. left.
  - intros m' Hm'. apply Hk. right. exact Hm'.
Qed.

Lemma logs_update_last (ms : list Metric) (m : Metric)
    (logs : gmap string Tensor) :
  update_logs logs (ms ++ [m]) !! metric_name m = Some (metric_result m).
Proof.
  unfold logs_update. rewrite foldl_app. cbn [foldl].
  apply lookup_insert_eq.
Qed.

Lemma report_has_loss (loss : Tensor) (labels outputs : pyval) (model : Model)
    (metrics : option (list Metric)) :
  is_Some ((make_report loss labels outputs model metrics).1.1 !! loss_key).
Proof.
  unfold report.
  assert (H0 : is_Some (({[ loss_key := loss ]} : gmap string Tensor) !! loss_key)).
  { rewrite lookup_singleton_eq. eauto. }
  destruct (metrics_given metrics) as [ms|]; cbn.
  - apply logs_update_keeps, H0.
  - destruct (has_compiled_metrics model); cbn; [ apply logs_update_keeps | ];
      exact H0.
Qed.

(** X10. The logs a step returns always have a ["loss"] entry.  It is
    the loss of the step as long as no reported metric is itself named
    ["loss"]; the result of a metric of that name, given last, takes its
    place. *)
Theorem validation_logs_loss (inputs : pyval) (model : Model)
    (metrics : option (list Metric)) (logs : gmap string Tensor)
    (model1 : Model) (metrics1 : option (list Metric)) :
  validation_step call_model model_losses update_state metric_name
    metric_result has_compiled_metrics update_compiled_metrics model_metrics
    inputs model metrics = Ok (logs, model1, metrics1) ->
  is_Some (logs !! loss_key)
  /\ (forall (ms : list Metric) (loss : Tensor),
        metrics = Some ms ->
        ms <> [] ->
        add_n (model_losses model) = Ok loss ->
        (forall m, m ∈ ms -> metric_name m <> loss_key
                   /\ forall a b, metric_name (update_state m a b) = metric_name m) ->
        logs !! loss_key = Some loss)
  /\ (forall (ms : list Metric) (m : Metric) (outputs : pyval),
        metrics = Some (ms ++ [m]) ->
        call_model model (split_inputs inputs).1 false = Ok outputs ->
        metric_name (update_state m (split_inputs inputs).2 outputs) = loss_key ->
        logs !! loss_key
        = Some (metric_result (update_state m (split_inputs inputs).2 outputs))).
Proof.
  unfold validation_step. destruct (split_inputs inputs) as [features labels].
  cbn [fst snd]. unfold validate_on, inference_step. intros H.
  apply bind_Ok_inv in H as (outputs & Ecall & H).
  apply bind_Ok_inv in H as (loss & Eloss & H).
  injection H as H.
  split; [ | split ].
  - pose proof (report_has_loss loss labels outputs model metrics) as Hl.
    rewrite H in Hl. exact Hl.
  - intros ms loss' -> Hne Eloss' Hnames.
    assert (loss' = loss) as -> by (unfold build_losses in *; congruence).
    unfold report in H. destruct ms as [|m0 ms]; [ contradiction | ].
    change (metrics_given (Some (m0 :: ms))) with (Some (m0 :: ms)) in H.
    cbv beta iota zeta in H. injection H as <- _ _.
    change (update_logs {[ loss_key := loss ]}
              (process_metrics update_state (m0 :: ms) labels outputs)
            !! loss_key = Some loss).
    rewrite (logs_update_other
               (process_metrics update_state (m0 :: ms) labels outputs)
               {[ loss_key := loss ]} loss_key);
      [ apply lookup_singleton_eq | ].
    intros m Hm. unfold process_metrics in Hm.
    apply list_elem_of_fmap in Hm as (m' & -> & Hm').
    destruct (Hnames m' Hm') as [Hn Hstable]. rewrite Hstable. exact Hn.
  - intros ms m outputs' -> Ecall' Hname.
    assert (outputs' = outputs) as -> by congruence.
    unfold report in H.
    assert (Hg : metrics_given (Some (ms ++ [m])) = Some (ms ++ [m])).
    { destruct ms; reflexivity. }
    rewrite Hg in H. cbv beta iota zeta in H. injection H as <- _ _.
    unfold process_metrics. rewrite map_app. cbn [map].
    rewrite <- Hname. apply logs_update_last.
Qed.

(** X11. For a model without auxiliary losses ([model.losses] empty)
    neither step computes a loss: after the forward pass succeeds,
    [train_step] and [validation_step] both raise the [ValueError] of
    [tf.add_n], which is handed an empty list. *)
Theorem steps_need_aux_losses (inputs : pyval) (model : Model)
    (optimizer : Optimizer) (metrics : option (list Metric)) :
  model_losses model = [] ->
  (forall outputs,
     call_model model (split_inputs inputs).1 true = Ok outputs ->
     train_step call_model model_losses num_replicas_in_sync
       is_loss_scale_optimizer get_scaled_loss get_unscaled_gradients
       tape_gradient apply_gradients update_state metric_name metric_result
       has_compiled_metrics update_compiled_metrics model_metrics
       inputs model optimizer metrics
     = Raise (ValueError add_n_msg))
  /\ (forall outputs,
      call_model model (split_inputs inputs).1 false = Ok outputs ->
      validation_step call_model model_losses update_state metric_name
        metric_result has_compiled_metrics update_compiled_metrics
        model_metrics inputs model metrics
      = Raise (ValueError add_n_msg)).
Proof.
  intros Hempty. unfold train_step, validation_step.
  destruct (split_inputs inputs) as [features labels]. cbn [fst].
  unfold train_on, validate_on, inference_step.
  split; intros outputs ->; rewrite bind_Ok, Hempty; reflexivity.
Qed.

End StepMore.

Lemma validation_logs_loss_witness :
  exists logs model1 metrics1,
    TaskDemo.demo_validation_step (VTuple [VInt 1; VInt 2]) [loss_a]
      (Some [("acc", loss_b); ("loss", loss_c)])
    = Ok (logs, model1, metrics1)
    /\ is_Some (logs !! loss_key)
    /\ logs !! loss_key = Some loss_c.
Proof.
  eexists. eexists. eexists. split; [ vm_compute; reflexivity | ].
  destruct (validation_logs_loss
              (fun (_ : list Tensor) x (_ : bool) => Ok x) (fun m => m)
              (fun (m : TaskDemo.demo_metric) _ _ => m) fst snd
              (fun _ => false) (fun m _ _ => m) (fun _ => [])
              (VTuple [VInt 1; VInt 2]) [loss_a]
              (Some [("acc", loss_b); ("loss", loss_c)]) _ _ _ eq_refl)
    as (Hsome & _ & Hover).
  split; [ exact Hsome | ].
  apply (Hover [("acc", loss_b)] ("loss", loss_c) (VInt 1));
    reflexivity.
Defined.

Lemma steps_need_aux_losses_witness :
  TaskDemo.demo_train_step (VTuple [VInt 1; VInt 2]) [] None
  = Raise (ValueError add_n_msg)
  /\ TaskDemo.demo_validation_step (VInt 1) [] None
     = Raise (ValueError add_n_msg).
Proof.
  split.
  - apply (proj1 (steps_need_aux_losses
                    (fun (_ : list Tensor) x (_ : bool) => Ok x) (fun m => m)
                    1 (fun _ : unit => false) (fun _ t => t)
                    (fun _ (g : unit) => g) (fun _ _ _ => tt)
                    (fun o m _ => (o, m))
                    (fun (m : TaskDemo.demo_metric) _ _ => m) fst snd
                    (fun _ => false) (fun m _ _ => m) (fun _ => [])
                    (VTuple [VInt 1; VInt 2]) [] tt None eq_refl) (VInt 1)).
    reflexivity.
  - apply (proj2 (steps_need_aux_losses
                    (fun (_ : list Tensor) x (_ : bool) => Ok x) (fun m => m)
                    1 (fun _ : unit => false) (fun _ t => t)
                    (fun _ (g : unit) => g) (fun _ _ _ => tt)
                    (fun o m _ => (o, m))
                    (fun (m : TaskDemo.demo_metric) _ _ => m) fst snd
                    (fun _ => false) (fun m _ _ => m) (fun _ => [])
                    (VInt 1) [] tt None eq_refl) (VInt 1)).
    reflexivity.
Defined.

End TaskFacts.

(* ===================================================================== *)
(** ** Further properties: the speech recognition driver *)
(* ===================================================================== *)

Module TrainingRunFacts.
Import Training TrainingLoops TrainingSamples PyFacts.

Ltac bind_inv H :=
  let a := fresh "a" in
  let E := fresh "E" in
  apply bind_Ok_inv in H; destruct H as (a & E & H); cbv beta in H.

(** *** The resume position, further cases *)

(** X12. A package without an [epoch] key is read as one written after
    epoch 1: without an [iteration] key the run resumes at epoch index 1,
    so epoch index 0 is never trained; with one it resumes inside epoch
    index 0. *)
Theorem resume_counters_no_epoch (package : gmap string pyval) (args : Args)
    (a : Z) :
  start_epoch args = -1 ->
  package !! "epoch" = None ->
  py_int (dict_get package "avg_loss" (VInt 0)) = Ok a ->
  (package !! "iteration" = None ->
     resume_counters package args = Ok (1, VInt 0, a))
  /\ (forall it : Z, package !! "iteration" = Some (VInt it) ->
       resume_counters package args = Ok (0, VInt (it + 1), a)).
Proof.
  intros Hflag He Ha. unfold resume_counters, dict_get in *.
  rewrite He. cbn [py_int]. rewrite bind_Ok. split.
  - intros ->. rewrite bind_Ok, Ha, bind_Ok, Hflag. reflexivity.
  - intros it ->. cbn [py_add as_number]. rewrite !bind_Ok, Ha, bind_Ok, Hflag.
    reflexivity.
Qed.

Lemma resume_counters_no_epoch_witness :
  resume_counters weights_only_package (demo_args "last.pth")
  = Ok (1, VInt 0, 0)
  /\ resume_counters iteration_only_package (demo_args "last.pth")
     = Ok (0, VInt 5, 0).
Proof.
  split.
  - apply (proj1 (resume_counters_no_epoch weights_only_package
                    (demo_args "last.pth") 0 eq_refl
                    ltac:(vm_compute; reflexivity)
                    ltac:(vm_compute; reflexivity))).
    vm_compute. reflexivity.
  - apply (proj2 (resume_counters_no_epoch iteration_only_package
                    (demo_args "last.pth") 0 eq_refl
                    ltac:(vm_compute; reflexivity)
                    ltac:(vm_compute; reflexivity)) 4).
    vm_compute. reflexivity.
Defined.

(** X13. A [start_epoch] flag other than -1 decides the epoch to resume
    from, whatever the package holds; the batch to resume from still
    comes from the package. *)
Theorem resume_counters_flag_wins (package : gmap string pyval) (args : Args)
    (flag_off : Args) (s0 a : Z) (it : pyval) :
  start_epoch args <> -1 ->
  start_epoch flag_off = -1 ->
  resume_counters package flag_off = Ok (s0, it, a) ->
  resume_counters package args = Ok (start_epoch args, it, a).
Proof.
  intros Hflag Hoff. unfold resume_counters. intros H.
  bind_inv H. rewrite E. rewrite bind_Ok.
  bind_inv H. destruct a1 as [s1 it1]. rewrite E0, bind_Ok.
  bind_inv H. rewrite E1, bind_Ok.
  rewrite Hoff in H. cbn in H. injection H as <- <- <-.
  destruct (Z.eqb_spec (start_epoch args) (-1)) as [|_]; [ contradiction | ].
  reflexivity.
Qed.

Lemma resume_counters_flag_wins_witness :
  resume_counters batch_checkpoint (args_from_epoch 0) = Ok (0, VInt 6, 0).
Proof.
  apply (resume_counters_flag_wins batch_checkpoint (args_from_epoch 0)
           (demo_args "last.pth") 2 0 (VInt 6));
    [ discriminate | reflexivity | reflexivity ].
Defined.

(** X14. An [iteration] key that holds [None] is read as no key at all:
    the run resumes at the start of the epoch after the saved one. *)
Theorem iteration_none_is_absent (package : gmap string pyval) (args : Args) :
  resume_counters (<["iteration" := VNone]> package) args
  = resume_counters (delete "iteration" package) args.
Proof.
  unfold resume_counters.
  assert (Hit : dict_get (<["iteration" := VNone]> package) "iteration" VNone
                = dict_get (delete "iteration" package) "iteration" VNone).
  { unfold dict_get. rewrite lookup_insert_eq, lookup_delete_eq. reflexivity. }
  assert (Hother : forall k d, k <> "iteration" ->
            dict_get (<["iteration" := VNone]> package) k d
            = dict_get (delete "iteration" package) k d).
  { intros k d Hk. unfold dict_get.
    rewrite lookup_insert_ne, lookup_delete_ne by congruence. reflexivity. }
  rewrite Hit, !Hother by discriminate. reflexivity.
Qed.

(** *** The loops of [main] *)

Section RunFacts.
Context {Meter : Type}.
Variable params : Params.
Variable args : Args.
Variable n_batches : nat.
Variable batch_loss : Z -> Z -> list float * Z.
Variable tensor_sum : list float -> float.
Variable meter_update : Meter -> pyval -> Z -> Meter.
Variable eval_model : Z -> result (float * float).

Abbreviation St := (state Meter).
Abbreviation step := (batch_step batch_loss tensor_sum meter_update).
Abbreviation batches :=
  (batch_loop n_batches batch_loss tensor_sum meter_update).
Abbreviation over := (steps_over batch_loss tensor_sum meter_update).
Abbreviation body :=
  (epoch_body params args n_batches batch_loss tensor_sum meter_update eval_model).
Abbreviation run_epochs :=
  (epochs_run params args n_batches batch_loss tensor_sum meter_update eval_model).

(** What a batch step leaves alone, and what it prints. *)
Lemma batch_step_frame (epoch i : Z) (st st1 : St) :
  step epoch i st = Ok st1 ->
  start_iter st1 = start_iter st
  /\ loss_results st1 = loss_results st
  /\ wer_results st1 = wer_results st
  /\ cer_results st1 = cer_results st
  /\ best_wer st1 = best_wer st
  /\ wer st1 = wer st /\ cer st1 = cer st
  /\ rate st1 = rate st
  /\ exists printed, out st1 = out st ++ printed
       /\ Forall (fun ev => ev = Print inf_warning) printed.
Proof.
  unfold batch_step. destruct (batch_loss epoch i) as [loss size]. intros H.
  bind_inv H. destruct a as [v printed]. bind_inv H.
  injection H as <-. cbn. repeat split.
  exists printed. split; [ reflexivity | ].
  unfold loss_value_of in E.
  destruct (feqb (tensor_sum loss) float_inf || feqb (tensor_sum loss) float_neg_inf).
  - injection E as <- <-. repeat constructor.
  - destruct loss; [ discriminate | ]. injection E as <- <-. constructor.
Qed.

Lemma batch_loop_frame (todo : nat) : forall (epoch i : Z) (st st1 : St),
  batches todo epoch i st = Ok st1 ->
  start_iter st1 = start_iter st
  /\ loss_results st1 = loss_results st
  /\ wer_results st1 = wer_results st
  /\ cer_results st1 = cer_results st
  /\ best_wer st1 = best_wer st
  /\ wer st1 = wer st /\ cer st1 = cer st
  /\ rate st1 = rate st
  /\ exists printed, out st1 = out st ++ printed
       /\ Forall (fun ev => ev = Print inf_warning) printed.
Proof.
  induction todo as [|todo IH]; intros epoch i st st1 H; cbn [batch_loop] in H.
  - injection H as <-. repeat split. exists []. rewrite app_nil_r. auto.
  - destruct (i =? Z.of_nat n_batches).
    + injection H as <-. repeat split. exists []. rewrite app_nil_r. auto.
    + bind_inv H. apply IH in H. apply batch_step_frame in E.
      destruct H as (-> & -> & -> & -> & -> & -> & -> & -> & p2 & -> & Hp2).
      destruct E as (-> & -> & -> & -> & -> & -> & -> & -> & p1 & -> & Hp1).
      repeat split. exists (p1 ++ p2). rewrite app_assoc. split; [ reflexivity | ].
      apply Forall_app. auto.
Qed.

(** The state a completed epoch ends in, field by field.  [failed] tells
    whether the evaluation raised [RuntimeError]. *)
Lemma epoch_body_inv (epoch : Z) (st st1 : St) (stop : bool) :
  body epoch st = Ok (st1, stop) ->
  exists (i0 : Z) (stb : St) (avg w c : float) (l wr cr : results) (r : float)
         (failed : bool),
    py_index (start_iter st) = Ok i0
    /\ batches n_batches epoch i0 st = Ok stb
    /\ py_truediv_int (avg_loss stb) (Z.of_nat n_batches) = Ok avg
    /\ (if failed
        then eval_model epoch = Raise RuntimeError
             /\ wer stb = Some w /\ cer stb = Some c
        else eval_model epoch = Ok (w, c))
    /\ setitem (loss_results stb) epoch avg = Ok l
    /\ setitem (wer_results stb) epoch w = Ok wr
    /\ setitem (cer_results stb) epoch c = Ok cr
    /\ float_truediv (rate stb) (learning_anneal params) = Ok r
    /\ avg_loss st1 = VInt 0 /\ start_iter st1 = VInt 0
    /\ losses st1 = losses stb
    /\ loss_results st1 = l /\ wer_results st1 = wr /\ cer_results st1 = cr
    /\ wer st1 = Some w /\ cer st1 = Some c
    /\ best_wer st1 = (if improves (best_wer stb) w then Some w else best_wer stb)
    /\ rate st1 = r
    /\ out st1
       = out stb
         ++ [TrainingSummary (epoch + 1) (VFloat avg)]
         ++ (if failed then [Print skip_warning] else [])
         ++ [ValidationSummary (epoch + 1) w c]
         ++ (if checkpoint args
             then [Saved (epoch_path args epoch) epoch l wr cr] else [])
         ++ [LearningRate r]
         ++ (if improves (best_wer stb) w
             then [Print ("Found better validated model, saving to "
                          ++ model_path args)%string;
                   Saved (model_path args) epoch l wr cr]
             else []).
Proof.
  unfold epoch_body. intros H.
  bind_inv H. rename a into i0, E into Ei.
  bind_inv H. rename a into stb, E into Eb.
  bind_inv H. rename a into avg, E into Ea.
  bind_inv H. rename a into ste, E into Ee.
  bind_inv H. rename a into l, E into El.
  bind_inv H. rename a into w, E into Ew.
  bind_inv H. rename a into wr, E into Ewr.
  bind_inv H. rename a into c, E into Ec.
  bind_inv H. rename a into cr, E into Ecr.
  bind_inv H. rename a into r, E into Er.
  injection H as <- _.
  unfold evaluate in Ee.
  destruct (eval_model epoch) as [[w0 c0]|e] eqn:Eev.
  - injection Ee as <-. cbn in El, Ew, Ewr, Ec, Ecr.
    injection Ew as <-. injection Ec as <-.
    exists i0, stb, avg, w0, c0, l, wr, cr, r, false.
    destruct (checkpoint args); cbn in Er |- *;
      destruct (improves (best_wer stb) w0); cbn;
      repeat (split; [ first [ assumption | reflexivity ] | ]);
      rewrite <- ?app_assoc; reflexivity.
  - destruct e; try discriminate. injection Ee as <-.
    cbn in El, Ew, Ewr, Ec, Ecr.
    unfold read_local in Ew, Ec.
    destruct (wer stb) as [w0|] eqn:Hw; [ | discriminate ].
    destruct (cer stb) as [c0|] eqn:Hc; [ | discriminate ].
    injection Ew as <-. injection Ec as <-.
    exists i0, stb, avg, w0, c0, l, wr, cr, r, true.
    destruct (checkpoint args); cbn in Er |- *; rewrite ?Hw, ?Hc;
      destruct (improves (best_wer stb) w0); cbn; rewrite ?Hw, ?Hc;
      repeat (split; [ first [ assumption | reflexivity
                             | repeat split; assumption ] | ]);
      rewrite <- ?app_assoc; reflexivity.
Qed.

(** **** The batch loop *)

Lemma batch_loop_no_break (epoch : Z) (todo : nat) : forall (i : Z) (st : St),
  i + Z.of_nat todo <= Z.of_nat n_batches \/ Z.of_nat n_batches < i ->
  batches todo epoch i st = over epoch (indices_from i todo) st.
Proof.
  induction todo as [|todo IH]; intros i st Hi; [ reflexivity | ].
  cbn [batch_loop indices_from steps_over].
  destruct (Z.eqb_spec i (Z.of_nat n_batches)) as [E|_]; [ lia | ].
  destruct (step epoch i st) as [st1|e]; [ | reflexivity ].
  rewrite !bind_Ok. apply IH. lia.
Qed.

Lemma batch_loop_until_end (epoch : Z) (todo : nat) : forall (i : Z) (st : St),
  i <= Z.of_nat n_batches ->
  Z.of_nat n_batches - i <= Z.of_nat todo ->
  batches todo epoch i st
  = over epoch (indices_from i (Z.to_nat (Z.of_nat n_batches - i))) st.
Proof.
  induction todo as [|todo IH]; intros i st Hle Htodo.
  - replace (Z.of_nat n_batches - i) with 0 by lia. reflexivity.
  - cbn [batch_loop].
    destruct (Z.eqb_spec i (Z.of_nat n_batches)) as [E|Hne].
    + replace (Z.of_nat n_batches - i) with 0 by lia. reflexivity.
    + replace (Z.to_nat (Z.of_nat n_batches - i))
        with (S (Z.to_nat (Z.of_nat n_batches - (i + 1)))) by lia.
      cbn [indices_from steps_over].
      destruct (step epoch i st) as [st1|e]; [ | reflexivity ].
      rewrite !bind_Ok. apply IH; lia.
Qed.

(** X15. An epoch entered at batch index [s] with [0 <= s <= n], [n]
    being the length of the loader, runs the batch steps [s, ..., n-1]
    and no other.  An index outside that range is not an error: the
    test [i == len(train_loader)] never holds, and all [n] batches run,
    numbered from [s]. *)
Theorem batch_loop_indices (epoch s : Z) (st : St) :
  (0 <= s <= Z.of_nat n_batches ->
     batch_loop n_batches batch_loss tensor_sum meter_update n_batches epoch s st
     = steps_over batch_loss tensor_sum meter_update epoch
         (indices_from s (Z.to_nat (Z.of_nat n_batches - s))) st)
  /\ (s < 0 \/ Z.of_nat n_batches < s ->
      batch_loop n_batches batch_loss tensor_sum meter_update n_batches epoch s st
      = steps_over batch_loss tensor_sum meter_update epoch
          (indices_from s n_batches) st).
Proof.
  split.
  - intros Hs. apply batch_loop_until_end; lia.
  - intros Hs. apply batch_loop_no_break. lia.
Qed.

(** **** One epoch *)

(** X16. After a completed epoch the next one starts at batch 0 with a
    running loss of 0, and [wer], [cer] and [best_wer] are bound, so a
    failing evaluation can end the run only in the first epoch of a
    process. *)
Theorem epoch_postcondition (epoch : Z) (st st1 : St) (stop : bool) :
  epoch_body params args n_batches batch_loss tensor_sum meter_update
    eval_model epoch st = Ok (st1, stop) ->
  start_iter st1 = VInt 0
  /\ avg_loss st1 = VInt 0
  /\ is_Some (wer st1) /\ is_Some (cer st1) /\ is_Some (best_wer st1).
Proof.
  intros H.
  apply epoch_body_inv in H
    as (i0 & stb & avg & w & c & l & wr & cr & r & failed & _ & _ & _ & _ & _
        & _ & _ & _ & Havg & Hit & _ & _ & _ & _ & Hw & Hc & Hb & _).
  repeat split; try assumption; try (rewrite Hw; eauto); try (rewrite Hc; eauto).
  rewrite Hb. unfold improves.
  destruct (best_wer stb) as [b|]; [ destruct (fltb w b) | ]; eauto.
Qed.

(** X17. [best_wer] never gets worse over an epoch: it stays as it was,
    or becomes the word error rate of this epoch, which is then strictly
    below the old one. *)
Theorem best_wer_never_worse (epoch : Z) (st st1 : St) (stop : bool)
    (b : float) :
  epoch_body params args n_batches batch_loss tensor_sum meter_update
    eval_model epoch st = Ok (st1, stop) ->
  best_wer st = Some b ->
  best_wer st1 = Some b
  \/ (exists w, best_wer st1 = Some w /\ wer st1 = Some w /\ fltb w b = true).
Proof.
  intros H Hb.
  apply epoch_body_inv in H
    as (i0 & stb & avg & w & c & l & wr & cr & r & failed & _ & Hloop & _ & _
        & _ & _ & _ & _ & _ & _ & _ & _ & _ & _ & Hw & _ & Hbest & _).
  apply batch_loop_frame in Hloop as (_ & _ & _ & _ & Hkeep & _).
  rewrite Hkeep, Hb in Hbest. cbn [improves] in Hbest.
  destruct (fltb w b) eqn:Hlt.
  - right. exists w. auto.
  - left. exact Hbest.
Qed.

(** X18. With [params.learning_anneal] zero no epoch completes: the
    division of the learning rate raises after the batches were trained
    and the model was evaluated. *)
Theorem zero_anneal_no_epoch (epoch : Z) (st : St) (sign : bool) :
  learning_anneal params = S754_zero sign ->
  forall r,
    epoch_body params args n_batches batch_loss tensor_sum meter_update
      eval_model epoch st <> Ok r.
Proof.
  intros Hzero [st1 stop] H.
  apply epoch_body_inv in H
    as (i0 & stb & avg & w & c & l & wr & cr & r & failed & _ & _ & _ & _ & _
        & _ & _ & Hdiv & _).
  rewrite Hzero in Hdiv. discriminate.
Qed.

(** X19. With [--checkpoint], a completed epoch has saved the three
    result arrays as they stand at its end under
    [save_folder/deepspeech_<epoch+1>.pth]. *)
Theorem epoch_checkpoint_saved (epoch : Z) (st st1 : St) (stop : bool) :
  checkpoint args = true ->
  epoch_body params args n_batches batch_loss tensor_sum meter_update
    eval_model epoch st = Ok (st1, stop) ->
  In (Saved (epoch_path args epoch) epoch
        (loss_results st1) (wer_results st1) (cer_results st1)) (out st1).
Proof.
  intros Hcp H.
  apply epoch_body_inv in H
    as (i0 & stb & avg & w & c & l & wr & cr & r & failed & _ & _ & _ & _ & _
        & _ & _ & _ & _ & _ & _ & -> & -> & -> & _ & _ & _ & _ & ->).
  rewrite Hcp. rewrite !in_app_iff. cbn. tauto.
Qed.

(** X20. While [best_wer] is unbound, as it is at the start of every
    process, a completed epoch makes its word error rate the best one
    and saves the model under [model_path], whatever earlier runs
    recorded. *)
Theorem first_epoch_saves_best (epoch : Z) (st st1 : St) (stop : bool) :
  best_wer st = None ->
  epoch_body params args n_batches batch_loss tensor_sum meter_update
    eval_model epoch st = Ok (st1, stop) ->
  best_wer st1 = wer st1
  /\ In (Saved (model_path args) epoch
           (loss_results st1) (wer_results st1) (cer_results st1)) (out st1).
Proof.
  intros Hb H.
  apply epoch_body_inv in H
    as (i0 & stb & avg & w & c & l & wr & cr & r & failed & _ & Hloop & _ & _
        & _ & _ & _ & _ & _ & _ & _ & -> & -> & -> & -> & _ & -> & _ & ->).
  apply batch_loop_frame in Hloop as (_ & _ & _ & _ & Hkeep & _).
  rewrite Hkeep, Hb. cbn [improves]. split; [ reflexivity | ].
  rewrite !in_app_iff. cbn. tauto.
Qed.

(** X21. When the evaluation raises [RuntimeError] and no earlier
    evaluation of this process has bound [wer], the epoch does not
    complete, on a fresh run and on a resumed one alike. *)
Theorem failed_eval_unbound_raises (epoch : Z) (st : St) :
  wer st = None ->
  eval_model epoch = Raise RuntimeError ->
  forall r,
    epoch_body params args n_batches batch_loss tensor_sum meter_update
      eval_model epoch st <> Ok r.
Proof.
  intros Hwer Hfail [st1 stop] H.
  apply epoch_body_inv in H
    as (i0 & stb & avg & w & c & l & wr & cr & r & failed & _ & Hloop & _
        & Heval & _).
  apply batch_loop_frame in Hloop as (_ & _ & _ & _ & _ & Hw & _).
  destruct failed.
  - destruct Heval as (_ & Hbound & _). congruence.
  - congruence.
Qed.

(** X22. When the evaluation raises [RuntimeError] after an earlier one
    succeeded, the epoch records the word and character error rates of
    that earlier evaluation under its own index, keeps them in [wer] and
    [cer], and prints the warning. *)
Theorem failed_eval_records_stale (epoch : Z) (st st1 : St) (w c : float)
    (stop : bool) :
  wer st = Some w -> cer st = Some c ->
  eval_model epoch = Raise RuntimeError ->
  epoch_body params args n_batches batch_loss tensor_sum meter_update
    eval_model epoch st = Ok (st1, stop) ->
  setitem (wer_results st) epoch w = Ok (wer_results st1)
  /\ setitem (cer_results st) epoch c = Ok (cer_results st1)
  /\ wer st1 = Some w /\ cer st1 = Some c
  /\ In (Print skip_warning) (out st1)
  /\ In (ValidationSummary (epoch + 1) w c) (out st1).
Proof.
  intros Hwer Hcer Hfail H.
  apply epoch_body_inv in H
    as (i0 & stb & avg & w1 & c1 & l & wr & cr & r & failed & _ & Hloop & _
        & Heval & _ & Hsw & Hsc & _ & _ & _ & _ & _ & -> & -> & -> & -> & _
        & _ & ->).
  apply batch_loop_frame in Hloop as (_ & _ & Hwr & Hcr & _ & Hw & Hc & _).
  destruct failed; [ | congruence ].
  destruct Heval as (_ & Hw1 & Hc1).
  assert (w1 = w) as -> by congruence. assert (c1 = c) as -> by congruence.
  rewrite <- Hwr, <- Hcr.
  repeat split; try assumption; rewrite !in_app_iff; cbn; tauto.
Qed.

(** X23. Without [params.exit_at_acc] the outcome of the epoch loop is
    that of running every epoch of the range, a raised exception
    included: no word error rate ends the run early. *)
Theorem loop_without_exit_runs_all (todo : nat) : forall (epoch : Z) (st : St),
  exit_at_acc params = false ->
  epoch_loop params args n_batches batch_loss tensor_sum meter_update
    eval_model todo epoch st
  = epochs_run params args n_batches batch_loss tensor_sum meter_update
      eval_model todo epoch st.
Proof.
  induction todo as [|todo IH]; intros epoch st Hoff; [ reflexivity | ].
  cbn [epoch_loop epochs_run].
  destruct (body epoch st) as [[st2 stop]|e] eqn:E; [ | reflexivity ].
  apply TrainingFacts.epoch_body_flag in E. unfold target_reached in E.
  rewrite Hoff in E. cbn [andb] in E. subst stop.
  rewrite !bind_Ok. apply IH, Hoff.
Qed.

(** **** What a run prints and keeps *)

Lemma count_events_app (kind : event -> bool) (a b : list event) :
  count_events kind (a ++ b)
  = (count_events kind a + count_events kind b)%nat.
Proof. unfold count_events. rewrite filter_app, length_app. reflexivity. Qed.

Lemma count_events_cons (kind : event -> bool) (ev : event) (evs : list event) :
  count_events kind (ev :: evs)
  = ((if kind ev then 1 else 0) + count_events kind evs)%nat.
Proof.
  unfold count_events. destruct (kind ev) eqn:Hk.
  - rewrite filter_cons_True by exact Hk. reflexivity.
  - rewrite filter_cons_False; [ reflexivity | ]. rewrite Hk. discriminate.
Qed.

Lemma count_events_warnings (kind : event -> bool) (printed : list event) :
  kind (Print inf_warning) = false ->
  Forall (fun ev => ev = Print inf_warning) printed ->
  count_events kind printed = 0%nat.
Proof.
  intros Hk Hall. induction Hall as [|ev evs -> _ IH]; [ reflexivity | ].
  unfold count_events in *. rewrite filter_cons_False; [ exact IH | ].
  rewrite Hk. discriminate.
Qed.

Lemma epoch_body_counts (epoch : Z) (st st1 : St) (stop : bool) :
  body epoch st = Ok (st1, stop) ->
  count_events is_training_summary (out st1)
  = S (count_events is_training_summary (out st))
  /\ count_events is_validation_summary (out st1)
     = S (count_events is_validation_summary (out st)).
Proof.
  intros H.
  apply epoch_body_inv in H
    as (i0 & stb & avg & w & c & l & wr & cr & r & failed & _ & Hloop & _ & _
        & _ & _ & _ & _ & _ & _ & _ & _ & _ & _ & _ & _ & _ & _ & ->).
  apply batch_loop_frame in Hloop
    as (_ & _ & _ & _ & _ & _ & _ & _ & printed & -> & Hprinted).
  rewrite !count_events_app.
  rewrite !(count_events_warnings _ printed) by (reflexivity || exact Hprinted).
  destruct failed, (checkpoint args), (improves (best_wer stb) w);
    cbn [app]; rewrite !count_events_cons; cbn; split; lia.
Qed.

(** X24. A run of [k] completed epochs prints exactly [k] training
    summaries and [k] validation summaries, one of each per epoch, also
    for epochs whose evaluation failed. *)
Theorem one_summary_per_epoch (k : nat) : forall (epoch : Z) (st st1 : St),
  epochs_run params args n_batches batch_loss tensor_sum meter_update
    eval_model k epoch st = Ok st1 ->
  count_events is_training_summary (out st1)
  = (count_events is_training_summary (out st) + k)%nat
  /\ count_events is_validation_summary (out st1)
     = (count_events is_validation_summary (out st) + k)%nat.
Proof.
  induction k as [|k IH]; intros epoch st st1 H; cbn [epochs_run] in H.
  - injection H as <-. split; lia.
  - bind_inv H. destruct a as [st2 stop].
    apply epoch_body_counts in E as [Et Ev].
    apply IH in H as [Ht Hv]. rewrite Ht, Hv, Et, Ev. split; lia.
Qed.

Lemma setitem_length (t t1 : results) (i : Z) (x : float) :
  setitem t i x = Ok t1 -> length t1 = length t.
Proof.
  unfold setitem. intros H.
  destruct ((0 <=? i) && (i <? Z.of_nat (length t))).
  - injection H as <-. apply length_insert.
  - destruct ((- Z.of_nat (length t) <=? i) && (i <? 0)); [ | discriminate ].
    injection H as <-. apply length_insert.
Qed.

Lemma slice_stop_le (len : nat) (k : Z) : (slice_stop len k <= len)%nat.
Proof. unfold slice_stop. destruct (Z.ltb_spec k 0); lia. Qed.

Lemma assign_prefix_length (dst r : results) (src : pyval) (k : Z) :
  assign_prefix dst src k = Ok r -> length r = length dst.
Proof.
  unfold assign_prefix. destruct src as [| | | |data| | |]; try discriminate.
  pose proof (slice_stop_le (length dst) k) as Hle.
  destruct (bool_decide _) eqn:Hd.
  - apply bool_decide_eq_true in Hd. intros [= <-].
    rewrite length_app, length_map, length_drop, Hd. lia.
  - destruct (take _ data) as [|x [|y rest]]; try discriminate.
    intros [= <-]. rewrite length_app, length_replicate, length_drop. lia.
Qed.

Lemma epoch_body_lengths (epoch : Z) (st st1 : St) (stop : bool) :
  body epoch st = Ok (st1, stop) ->
  length (loss_results st1) = length (loss_results st)
  /\ length (wer_results st1) = length (wer_results st)
  /\ length (cer_results st1) = length (cer_results st).
Proof.
  intros H.
  apply epoch_body_inv in H
    as (i0 & stb & avg & w & c & l & wr & cr & r & failed & _ & Hloop & _ & _
        & Hl & Hw & Hc & _ & _ & _ & _ & -> & -> & -> & _).
  apply batch_loop_frame in Hloop as (_ & <- & <- & <- & _).
  apply setitem_length in Hl, Hw, Hc. auto.
Qed.

Lemma epoch_loop_lengths (todo : nat) : forall (epoch : Z) (st st1 : St),
  epoch_loop params args n_batches batch_loss tensor_sum meter_update
    eval_model todo epoch st = Ok st1 ->
  length (loss_results st1) = length (loss_results st)
  /\ length (wer_results st1) = length (wer_results st)
  /\ length (cer_results st1) = length (cer_results st).
Proof.
  induction todo as [|todo IH]; intros epoch st st1 H; cbn [epoch_loop] in H.
  - injection H as <-. auto.
  - bind_inv H. destruct a as [st2 stop].
    apply epoch_body_lengths in E as (E1 & E2 & E3).
    destruct stop.
    + injection H as <-. auto.
    + apply IH in H as (H1 & H2 & H3). rewrite H1, H2, H3. auto.
Qed.

Section WithResume.
Variable torch_load : string -> result (gmap string pyval).
Variable load_state_dict : pyval -> result unit.
Variable load_optim_dict : pyval -> result float.
Variable new_meter : Meter.

(** What [resume] hands to the loop. *)
Lemma resume_inv (l w c : results) (s0 : Z) (st0 : St) :
  resume args torch_load load_state_dict load_optim_dict new_meter l w c
    = Ok (s0, st0) ->
  best_wer st0 = None /\ wer st0 = None /\ cer st0 = None
  /\ length (loss_results st0) = length l
  /\ length (wer_results st0) = length w
  /\ length (cer_results st0) = length c.
Proof.
  unfold resume. intros H.
  bind_inv H. bind_inv H. bind_inv H. bind_inv H. bind_inv H. bind_inv H.
  destruct a4 as [[s1 it] avg].
  bind_inv H. bind_inv H. bind_inv H. bind_inv H. bind_inv H. bind_inv H.
  injection H as <- <-. cbn.
  repeat match goal with
         | Hp : assign_prefix _ _ _ = Ok _ |- _ =>
             apply assign_prefix_length in Hp
         end.
  repeat split; first [ reflexivity | assumption ].
Qed.

(** X25. When [main] returns, each of the three result arrays has
    exactly [params.epochs] cells, on a fresh run and on a resumed one,
    whatever the length of the arrays in the checkpoint. *)
Theorem main_results_length (st : St) :
  main params args torch_load load_state_dict load_optim_dict n_batches
    batch_loss tensor_sum new_meter meter_update eval_model = Ok st ->
  length (loss_results st) = Z.to_nat (epochs params)
  /\ length (wer_results st) = Z.to_nat (epochs params)
  /\ length (cer_results st) = Z.to_nat (epochs params).
Proof.
  unfold main. intros H.
  bind_inv H. rename a into l. bind_inv H. rename a into c.
  bind_inv H. rename a into w.
  assert (Hnew : forall r, new_results (epochs params) = Ok r ->
                 length r = Z.to_nat (epochs params)).
  { intros r Hr. unfold new_results in Hr.
    destruct (epochs params <? 0); [ discriminate | ].
    injection Hr as <-. apply length_replicate. }
  apply Hnew in E, E0, E1.
  bind_inv H. destruct a as [s0 st0]. bind_inv H. injection H as <-.
  apply epoch_loop_lengths in E3 as (H1 & H2 & H3). cbn.
  rewrite H1, H2, H3.
  destruct (bool_decide (continue_from args = "")).
  - injection E2 as <- <-. cbn. auto.
  - apply resume_inv in E2 as (_ & _ & _ & L1 & L2 & L3).
    rewrite L1, L2, L3. auto.
Qed.

(** X26. A resumed run starts with no best word error rate and with
    [wer] and [cer] unbound, whatever the checkpoint recorded. *)
Theorem resume_forgets_best (l w c : results) (s0 : Z) (st0 : St) :
  resume args torch_load load_state_dict load_optim_dict new_meter l w c
    = Ok (s0, st0) ->
  best_wer st0 = None /\ wer st0 = None /\ cer st0 = None.
Proof.
  intros H. apply resume_inv in H as (Hb & Hw & Hc & _). auto.
Qed.

(** X27. Resuming from a checkpoint at or past the last epoch trains
    nothing: [main] returns the restored state and reports no best word
    error rate. *)
Theorem main_nothing_left (arr : results) (s0 : Z) (st0 : St) :
  continue_from args <> "" ->
  new_results (epochs params) = Ok arr ->
  resume args torch_load load_state_dict load_optim_dict new_meter arr arr arr
    = Ok (s0, st0) ->
  epochs params <= s0 ->
  main params args torch_load load_state_dict load_optim_dict n_batches
    batch_loss tensor_sum new_meter meter_update eval_model
  = Ok (emit [BestWer None] st0).
Proof.
  intros Hfrom Hnew Hres Hdone. unfold main.
  rewrite Hnew, !bind_Ok.
  rewrite bool_decide_eq_false_2 by exact Hfrom.
  rewrite Hres, bind_Ok.
  replace (Z.to_nat (epochs params - s0)) with 0%nat by lia.
  cbn [epoch_loop]. rewrite bind_Ok.
  apply resume_inv in Hres as (-> & _). reflexivity.
Qed.

End WithResume.

(** X28. A summed loss that is not a number passes the guard: the first
    element of the loss tensor is added to the running average and given
    to the meter, infinite or not, and nothing is printed. *)
Theorem nan_loss_not_guarded (epoch i : Z) (st : St) (x : float)
    (rest : list float) (size : Z) (avg : pyval) :
  batch_loss epoch i = (x :: rest, size) ->
  tensor_sum (x :: rest) = S754_nan ->
  py_add (avg_loss st) (VFloat x) = Ok avg ->
  exists st1 : St,
    batch_step batch_loss tensor_sum meter_update epoch i st = Ok st1
    /\ avg_loss st1 = avg
    /\ losses st1 = meter_update (losses st) (VFloat x) size
    /\ out st1 = out st.
Proof.
  intros Hbatch Hnan Hadd. unfold batch_step, loss_value_of.
  rewrite Hbatch, Hnan. cbn [feqb SFeqb SFcompare orb].
  rewrite bind_Ok. cbn [emit avg_loss]. rewrite Hadd, bind_Ok.
  eexists. split; [ reflexivity | ]. cbn. rewrite app_nil_r. auto.
Qed.

End RunFacts.

Lemma batch_loop_indices_witness :
  batch_loop 2%nat demo_batch_loss sum_in_order demo_update 2%nat 0 1 demo_state
  = steps_over demo_batch_loss sum_in_order demo_update 0 [1] demo_state
  /\ batch_loop 2%nat demo_batch_loss sum_in_order demo_update 2%nat 0 5 demo_state
     = steps_over demo_batch_loss sum_in_order demo_update 0 [5; 6] demo_state.
Proof.
  split.
  - apply (proj1 (batch_loop_indices 2%nat demo_batch_loss sum_in_order
                    demo_update 0 1 demo_state)). lia.
  - apply (proj2 (batch_loop_indices 2%nat demo_batch_loss sum_in_order
                    demo_update 0 5 demo_state)). lia.
Defined.

Lemma epoch_postcondition_witness :
  exists st1 stop,
    demo_body (demo_params 3 false) eval_steady 0 demo_state = Ok (st1, stop)
    /\ start_iter st1 = VInt 0 /\ avg_loss st1 = VInt 0
    /\ is_Some (wer st1) /\ is_Some (cer st1) /\ is_Some (best_wer st1).
Proof.
  eexists. eexists. split; [ vm_compute; reflexivity | ].
  eapply (epoch_postcondition (demo_params 3 false) (demo_args "") 2%nat
            demo_batch_loss sum_in_order demo_update eval_steady 0 demo_state).
  vm_compute. reflexivity.
Defined.

Lemma best_wer_never_worse_witness :
  exists st1 stop,
    demo_body (demo_params 3 false) eval_improving 1
      (demo_after (demo_params 3 false) eval_improving 1) = Ok (st1, stop)
    /\ (best_wer st1 = Some (flt 30)
        \/ exists w, best_wer st1 = Some w /\ wer st1 = Some w
                     /\ fltb w (flt 30) = true).
Proof.
  eexists. eexists. split; [ vm_compute; reflexivity | ].
  eapply (best_wer_never_worse (demo_params 3 false) (demo_args "") 2%nat
            demo_batch_loss sum_in_order demo_update eval_improving 1
            (demo_after (demo_params 3 false) eval_improving 1)).
  - vm_compute. reflexivity.
  - vm_compute. reflexivity.
Defined.

Lemma zero_anneal_no_epoch_witness :
  exists e, demo_body zero_anneal_params eval_steady 0 demo_state = Raise e.
Proof.
  destruct (demo_body zero_anneal_params eval_steady 0 demo_state)
    as [r|e] eqn:E; [ exfalso | exists e; reflexivity ].
  apply (zero_anneal_no_epoch zero_anneal_params (demo_args "") 2%nat
           demo_batch_loss sum_in_order demo_update eval_steady 0 demo_state
           false eq_refl r).
  exact E.
Defined.

Lemma epoch_checkpoint_saved_witness :
  exists st1 stop,
    demo_body (demo_params 3 false) eval_steady 0 demo_state = Ok (st1, stop)
    /\ In (Saved "out/deepspeech_1.pth" 0
             (loss_results st1) (wer_results st1) (cer_results st1)) (out st1).
Proof.
  eexists. eexists. split; [ vm_compute; reflexivity | ].
  apply (epoch_checkpoint_saved (demo_params 3 false) (demo_args "") 2%nat
           demo_batch_loss sum_in_order demo_update eval_steady 0 demo_state
           _ false).
  - reflexivity.
  - vm_compute. reflexivity.
Defined.

Lemma first_epoch_saves_best_witness :
  exists st1 stop,
    demo_body (demo_params 3 false) eval_steady 0 demo_state = Ok (st1, stop)
    /\ best_wer st1 = wer st1
    /\ In (Saved "best.pth" 0
             (loss_results st1) (wer_results st1) (cer_results st1)) (out st1).
Proof.
  eexists. eexists. split; [ vm_compute; reflexivity | ].
  apply (first_epoch_saves_best (demo_params 3 false) (demo_args "") 2%nat
           demo_batch_loss sum_in_order demo_update eval_steady 0 demo_state
           _ false).
  - reflexivity.
  - vm_compute. reflexivity.
Defined.

Lemma one_summary_per_epoch_witness :
  exists st1,
    demo_epochs (demo_params 3 false) eval_failing_second 2 = Ok st1
    /\ count_events is_training_summary (out st1) = 2%nat
    /\ count_events is_validation_summary (out st1) = 2%nat.
Proof.
  eexists. split; [ vm_compute; reflexivity | ].
  apply (one_summary_per_epoch (demo_params 3 false) (demo_args "") 2%nat
           demo_batch_loss sum_in_order demo_update eval_failing_second
           2%nat 0 demo_state).
  vm_compute. reflexivity.
Defined.

Lemma main_results_length_witness :
  exists st,
    demo_main (demo_params 6 false) "last.pth" epoch_checkpoint eval_steady
    = Ok st
    /\ length (loss_results st) = 6%nat
    /\ length (wer_results st) = 6%nat
    /\ length (cer_results st) = 6%nat.
Proof.
  eexists. split; [ vm_compute; reflexivity | ].
  apply (main_results_length (demo_params 6 false) (demo_args "last.pth")
           2%nat demo_batch_loss sum_in_order demo_update eval_steady
           (fun _ => Ok epoch_checkpoint) (fun _ => Ok tt)
           (fun _ => Ok (flt 1)) []).
  vm_compute. reflexivity.
Defined.

Lemma resume_forgets_best_witness :
  exists s0 st0,
    resume (demo_args "last.pth") (fun _ => Ok epoch_checkpoint)
      (fun _ => Ok tt) (fun _ => Ok (flt 1)) ([] : list (pyval * Z))
      [None; None; None; None] [None; None; None; None]
      [None; None; None; None]
    = Ok (s0, st0)
    /\ wer_results st0 !! 0%nat = Some (Some (to_float32 (flt 30)))
    /\ best_wer st0 = None /\ wer st0 = None /\ cer st0 = None.
Proof.
  eexists. eexists. split; [ vm_compute; reflexivity | ].
  split; [ vm_compute; reflexivity | ].
  apply (resume_forgets_best (demo_args "last.pth")
           (fun _ => Ok epoch_checkpoint) (fun _ => Ok tt)
           (fun _ => Ok (flt 1)) ([] : list (pyval * Z))
           [None; None; None; None] [None; None; None; None]
           [None; None; None; None] 3).
  vm_compute. reflexivity.
Defined.

Lemma main_nothing_left_witness :
  exists st0,
    demo_main (demo_params 3 false) "last.pth" epoch_checkpoint eval_steady
    = Ok (emit [BestWer None] st0)
    /\ count_events is_training_summary (out st0) = 0%nat.
Proof.
  eexists. split.
  - apply (main_nothing_left (demo_params 3 false) (demo_args "last.pth")
             2%nat demo_batch_loss sum_in_order demo_update eval_steady
             (fun _ => Ok epoch_checkpoint) (fun _ => Ok tt)
             (fun _ => Ok (flt 1)) [] [None; None; None] 3).
    + discriminate.
    + reflexivity.
    + vm_compute. reflexivity.
    + vm_compute. discriminate.
  - vm_compute. reflexivity.
Defined.

Lemma nan_loss_not_guarded_witness :
  exists st1,
    batch_step cancelling_loss sum_in_order demo_update 0 0 demo_state = Ok st1
    /\ avg_loss st1 = VFloat float_inf
    /\ losses st1 = [(VFloat float_inf, 4)]
    /\ out st1 = [].
Proof.
  apply (nan_loss_not_guarded cancelling_loss sum_in_order demo_update 0 0
           demo_state float_inf [float_neg_inf] 4 (VFloat float_inf));
    vm_compute; reflexivity.
Defined.

Lemma failed_eval_unbound_raises_witness :
  exists e,
    demo_body (demo_params 3 false) eval_failing_first 0 demo_state = Raise e.
Proof.
  destruct (demo_body (demo_params 3 false) eval_failing_first 0 demo_state)
    as [r|e] eqn:E; [ exfalso | exists e; reflexivity ].
  apply (failed_eval_unbound_raises (demo_params 3 false)
           (demo_args "") 2%nat demo_batch_loss sum_in_order demo_update
           eval_failing_first 0 demo_state eq_refl eq_refl r).
  exact E.
Defined.

Lemma failed_eval_records_stale_witness :
  wer_results (demo_after (demo_params 3 false) eval_failing_second 2) !! 1%nat
  = Some (Some (to_float32 (flt 30)))
  /\ wer (demo_after (demo_params 3 false) eval_failing_second 2)
     = Some (flt 30)
  /\ In (Print skip_warning)
       (out (demo_after (demo_params 3 false) eval_failing_second 2)).
Proof.
  assert (Hrun : epoch_body (demo_params 3 false) (demo_args "") 2%nat
                   demo_batch_loss sum_in_order demo_update
                   eval_failing_second 1
                   (demo_after (demo_params 3 false) eval_failing_second 1)
                 = Ok (demo_after (demo_params 3 false) eval_failing_second 2,
                       false)) by (vm_compute; reflexivity).
  assert (Hwer : wer (demo_after (demo_params 3 false) eval_failing_second 1)
                 = Some (flt 30)) by (vm_compute; reflexivity).
  assert (Hcer : cer (demo_after (demo_params 3 false) eval_failing_second 1)
                 = Some (flt 5)) by (vm_compute; reflexivity).
  assert (Hfail : eval_failing_second 1 = Raise RuntimeError) by reflexivity.
  pose proof (failed_eval_records_stale _ _ _ _ _ _ _ _ _ _ _ _ _
                Hwer Hcer Hfail Hrun) as (_ & _ & Hw & _ & Hin & _).
  split; [ vm_compute; reflexivity | ]. split; [ exact Hw | exact Hin ].
Defined.

Lemma loop_without_exit_runs_all_witness :
  demo_loop (demo_params 2 false) eval_steady 2
  = demo_epochs (demo_params 2 false) eval_steady 2.
Proof.
  apply (loop_without_exit_runs_all (demo_params 2 false)
           (demo_args "") 2%nat demo_batch_loss sum_in_order demo_update
           eval_steady 2%nat 0 demo_state).
  reflexivity.
Defined.

(** *** Checkpoint paths *)

Lemma string_length_append (s t : string) :
  String.length (s ++ t) = (String.length s + String.length t)%nat.
Proof.
  induction s as [|a s IH]; [ reflexivity | ].
  change (S (String.length (s ++ t)%string)
          = S (String.length s + String.length t)).
  rewrite IH. reflexivity.
Qed.

Lemma string_append_inj_r (t : string) : forall s1 s2 : string,
  (s1 ++ t = s2 ++ t)%string -> s1 = s2.
Proof.
  induction s1 as [|a s1 IH]; intros [|b s2] H; cbn in H.
  - reflexivity.
  - apply (f_equal String.length) in H.
    change (String.length t = S (String.length (s2 ++ t)%string)) in H.
    rewrite string_length_append in H. lia.
  - apply (f_equal String.length) in H.
    change (S (String.length (s1 ++ t)%string) = String.length t) in H.
    rewrite string_length_append in H. lia.
  - injection H as -> H. f_equal. apply IH, H.
Qed.

(** X29. The per-epoch checkpoints of one run never overwrite each
    other: different epochs are saved under different paths. *)
Theorem epoch_path_distinct (args : Args) (epoch1 epoch2 : Z) :
  epoch1 <> epoch2 -> epoch_path args epoch1 <> epoch_path args epoch2.
Proof.
  intros Hne H. unfold epoch_path in H.
  apply String.app_inj in H. apply String.app_inj in H.
  apply string_append_inj_r in H. apply pretty_Z_inj in H. lia.
Qed.

Lemma epoch_path_distinct_witness :
  String.eqb (epoch_path (demo_args "") 0) (epoch_path (demo_args "") 1) = false.
Proof.
  apply String.eqb_neq. apply (epoch_path_distinct (demo_args "") 0 1). lia.
Defined.

End TrainingRunFacts.
